(** * FastAPI demo service: welcome, info and health endpoints

    A shallow embedding of

    - [app/models/response.py]  (the three pydantic response models),
    - [app/routers/health.py]   (the startup timestamp and [GET /health]),
    - [app/main.py]             ([GET /] and [GET /api/info]),

    together with the few pieces of the Python runtime the handlers call:
    binary64 floats ([time.time()] and float subtraction), naive datetimes
    ([datetime.utcnow().isoformat()]) and keyword construction of a
    pydantic [BaseModel]. *)

From Stdlib Require Import ZArith NArith List String Ascii Bool Lia Floats.
Import ListNotations.

Local Open Scope string_scope.
Local Open Scope Z_scope.

(** ** Python values *)

Module Py.

(** The dynamically typed values that reach a model constructor.  A Python
    [float] is an IEEE-754 binary64 number, which is what Rocq's primitive
    [float] is. *)
#[warnings="-register-all"]
Inductive value : Type :=
| VNone
| VBool (b : bool)
| VInt (z : Z)
| VFloat (f : float)
| VStr (s : string)
| VDict (d : list (value * value)).

(** The annotations used by the response models. *)
Inductive annotation : Type :=
| TStr
| TFloat
| TAny
| TDict (K V : annotation).

(** [isinstance T v]: [v] already has the annotated type. *)
Fixpoint isinstance (T : annotation) (v : value) : bool :=
  match T, v with
  | TAny, _ => true
  | TStr, VStr _ => true
  | TFloat, VFloat _ => true
  | TDict K V, VDict d =>
      forallb (fun kv => isinstance K (fst kv) && isinstance V (snd kv)) d
  | _, _ => false
  end.

(** Keyword arguments of a call, in the order they are written. *)
Definition kwargs := list (string * value).

Fixpoint kwarg (name : string) (kw : kwargs) : option value :=
  match kw with
  | [] => None
  | (k, v) :: rest => if String.eqb k name then Some v else kwarg name rest
  end.

(** *** Decimal formatting, as done by [%0wd] *)

Definition digit_char (d : Z) : ascii := ascii_of_nat (48 + Z.to_nat d).

Fixpoint digits_fuel (fuel : nat) (n : Z) (acc : string) : string :=
  match fuel with
  | O => acc
  | S fuel' =>
      let acc' := String (digit_char (n mod 10)) acc in
      if n / 10 =? 0 then acc' else digits_fuel fuel' (n / 10) acc'
  end.

(** The decimal digits of a non-negative integer, without leading zeros. *)
Definition decimal (n : Z) : string :=
  digits_fuel (S (Z.to_nat (Z.log2 n))) n "".

Fixpoint zeros (k : nat) : string :=
  match k with
  | O => ""
  | S k' => String "0" (zeros k')
  end.

(** [format_d w n] is ["%0wd" % n]: at least [w] characters, padded on the
    left with zeros, never truncated; a negative number keeps its sign in
    front of the padding. *)
Definition format_d (w : nat) (n : Z) : string :=
  if n <? 0
  then let s := decimal (- n) in
       String "-" (zeros (w - 1 - String.length s) ++ s)
  else let s := decimal n in
       zeros (w - String.length s) ++ s.

(** *** Naive datetimes *)

Record datetime : Type := mk_datetime {
  year : Z;
  month : Z;
  day : Z;
  hour : Z;
  minute : Z;
  second : Z;
  microsecond : Z
}.

Definition is_leap (y : Z) : bool :=
  (y mod 4 =? 0) && (negb (y mod 100 =? 0) || (y mod 400 =? 0)).

Definition days_in_month (y m : Z) : Z :=
  if m =? 2 then (if is_leap y then 29 else 28)
  else if (m =? 4) || (m =? 6) || (m =? 9) || (m =? 11) then 30
  else 31.

(** The class invariant of [datetime.datetime]: what its constructor
    checks, so what every value returned by [datetime.utcnow()] satisfies. *)
Definition datetime_valid (d : datetime) : bool :=
  (1 <=? year d) && (year d <=? 9999) &&
  (1 <=? month d) && (month d <=? 12) &&
  (1 <=? day d) && (day d <=? days_in_month (year d) (month d)) &&
  (0 <=? hour d) && (hour d <=? 23) &&
  (0 <=? minute d) && (minute d <=? 59) &&
  (0 <=? second d) && (second d <=? 59) &&
  (0 <=? microsecond d) && (microsecond d <=? 999999).

(** [datetime.isoformat()] with the default separator and
    [timespec='auto'] on a naive datetime: the microseconds are printed
    only when they are not zero, and there is no UTC offset. *)
Definition isoformat (d : datetime) : string :=
  format_d 4 (year d) ++ "-" ++ format_d 2 (month d) ++ "-" ++
  format_d 2 (day d) ++ "T" ++
  format_d 2 (hour d) ++ ":" ++ format_d 2 (minute d) ++ ":" ++
  format_d 2 (second d) ++
  (if microsecond d =? 0 then "" else "." ++ format_d 6 (microsecond d)).

(** Comparison of naive datetimes: lexicographic on the fields. *)
Fixpoint lex_compare (xs ys : list Z) : comparison :=
  match xs, ys with
  | x :: xs', y :: ys' =>
      match x ?= y with
      | Eq => lex_compare xs' ys'
      | c => c
      end
  | [], [] => Eq
  | [], _ :: _ => Lt
  | _ :: _, [] => Gt
  end.

Definition datetime_fields (d : datetime) : list Z :=
  [year d; month d; day d; hour d; minute d; second d; microsecond d].

Definition datetime_compare (a b : datetime) : comparison :=
  lex_compare (datetime_fields a) (datetime_fields b).

Definition datetime_leb (a b : datetime) : bool :=
  match datetime_compare a b with
  | Gt => false
  | _ => true
  end.

(** *** Reading an ISO-8601 timestamp

    The handlers only print timestamps; this reader is the meaning given
    here to "parseable as ISO-8601": the extended calendar format
    [YYYY-MM-DDTHH:MM:SS], optionally followed by a fraction of six
    digits, all fields in range. *)

Definition digit_value (c : ascii) : option Z :=
  let n := Z.of_nat (nat_of_ascii c) in
  if (48 <=? n) && (n <=? 57) then Some (n - 48) else None.

(** Exactly [w] decimal digits, most significant first. *)
Fixpoint take_digits (w : nat) (acc : Z) (s : string) : option (Z * string) :=
  match w with
  | O => Some (acc, s)
  | S w' =>
      match s with
      | String c s' =>
          match digit_value c with
          | Some d => take_digits w' (10 * acc + d) s'
          | None => None
          end
      | EmptyString => None
      end
  end.

Definition expect (c : ascii) (s : string) : option string :=
  match s with
  | String c' s' => if Ascii.eqb c c' then Some s' else None
  | EmptyString => None
  end.

Definition parse_fraction (s : string) : option Z :=
  match s with
  | EmptyString => Some 0
  | String c frac =>
      if Ascii.eqb c "."
      then match take_digits 6 0 frac with
           | Some (us, EmptyString) => Some us
           | _ => None
           end
      else None
  end.

Definition andThen {A B : Type} (o : option A) (k : A -> option B) : option B :=
  match o with
  | Some a => k a
  | None => None
  end.

Definition parse_iso8601 (s : string) : option datetime :=
  andThen (take_digits 4 0 s) (fun '(y, s) =>
  andThen (expect "-" s) (fun s =>
  andThen (take_digits 2 0 s) (fun '(mo, s) =>
  andThen (expect "-" s) (fun s =>
  andThen (take_digits 2 0 s) (fun '(d, s) =>
  andThen (expect "T" s) (fun s =>
  andThen (take_digits 2 0 s) (fun '(h, s) =>
  andThen (expect ":" s) (fun s =>
  andThen (take_digits 2 0 s) (fun '(mi, s) =>
  andThen (expect ":" s) (fun s =>
  andThen (take_digits 2 0 s) (fun '(sec, s) =>
  andThen (parse_fraction s) (fun us =>
  let d := mk_datetime y mo d h mi sec us in
  if datetime_valid d then Some d else None)))))))))))).

(** Sequences that never go down, for a boolean order. *)
Fixpoint nondecreasing {A : Type} (leb : A -> A -> bool) (l : list A) : bool :=
  match l with
  | a :: (b :: _) as rest => leb a b && nondecreasing leb rest
  | _ => true
  end.

End Py.

(** ** Pydantic's [BaseModel] *)

Module Pydantic.

(** What the library does with a value that is not already of the annotated
    type (its lax conversions, or a rejection) is not fixed by this
    repository: it is a parameter of the development. *)
Record conversions : Type := {
  to_str : Py.value -> option string;
  to_float : Py.value -> option float;
  to_dict : Py.value -> option (list (string * Py.value))
}.

(** The strict library: a value of another type is rejected. *)
Definition strict : conversions :=
  {| to_str := fun _ => None;
     to_float := fun _ => None;
     to_dict := fun _ => None |}.

(** The keys of a [Dict[str, Any]]. *)
Fixpoint str_keys (d : list (Py.value * Py.value))
  : option (list (string * Py.value)) :=
  match d with
  | [] => Some []
  | (Py.VStr k, v) :: rest =>
      match str_keys rest with
      | Some rest' => Some ((k, v) :: rest')
      | None => None
      end
  | _ :: _ => None
  end.

(** The keyword arguments assign to every annotated field a value of its
    annotated type (other keywords are ignored by the library). *)
Definition well_typed (annotations : list (string * Py.annotation))
    (kw : Py.kwargs) : bool :=
  forallb (fun a =>
             match Py.kwarg (fst a) kw with
             | Some v => Py.isinstance (snd a) v
             | None => false
             end) annotations.

Section Validators.
Variable lib : conversions.

(** Field validators: a value of the annotated type is taken as it is;
    there is no constraint on the value itself. *)
Definition validate_str (v : Py.value) : option string :=
  match v with
  | Py.VStr s => Some s
  | _ => to_str lib v
  end.

Definition validate_float (v : Py.value) : option float :=
  match v with
  | Py.VFloat f => Some f
  | _ => to_float lib v
  end.

Definition validate_dict_str_any (v : Py.value)
  : option (list (string * Py.value)) :=
  match v with
  | Py.VDict d =>
      match str_keys d with
      | Some d' => Some d'
      | None => to_dict lib v
      end
  | _ => to_dict lib v
  end.

(** A required field: the keyword must be present and validate. *)
Definition field {A : Type} (validate : Py.value -> option A)
    (name : string) (kw : Py.kwargs) : option A :=
  match Py.kwarg name kw with
  | Some v => validate v
  | None => None
  end.
End Validators.

End Pydantic.

(** ** [app/models/response.py] *)

Module HealthResponse.
Record t : Type := mk { status : string; version : string; uptime : float }.

Definition annotations : list (string * Py.annotation) :=
  [("status", Py.TStr); ("version", Py.TStr); ("uptime", Py.TFloat)].

(** The fields of an instance, as Python values. *)
Definition dict (r : t) : Py.kwargs :=
  [("status", Py.VStr (status r));
   ("version", Py.VStr (version r));
   ("uptime", Py.VFloat (uptime r))].

Definition init (lib : Pydantic.conversions) (kw : Py.kwargs) : option t :=
  match Pydantic.field (Pydantic.validate_str lib) "status" kw,
        Pydantic.field (Pydantic.validate_str lib) "version" kw,
        Pydantic.field (Pydantic.validate_float lib) "uptime" kw with
  | Some s, Some v, Some u => Some (mk s v u)
  | _, _, _ => None
  end.
End HealthResponse.

Module MessageResponse.
Record t : Type := mk { message : string; version : string; timestamp : string }.

Definition annotations : list (string * Py.annotation) :=
  [("message", Py.TStr); ("version", Py.TStr); ("timestamp", Py.TStr)].

Definition dict (r : t) : Py.kwargs :=
  [("message", Py.VStr (message r));
   ("version", Py.VStr (version r));
   ("timestamp", Py.VStr (timestamp r))].

Definition init (lib : Pydantic.conversions) (kw : Py.kwargs) : option t :=
  match Pydantic.field (Pydantic.validate_str lib) "message" kw,
        Pydantic.field (Pydantic.validate_str lib) "version" kw,
        Pydantic.field (Pydantic.validate_str lib) "timestamp" kw with
  | Some m, Some v, Some ts => Some (mk m v ts)
  | _, _, _ => None
  end.
End MessageResponse.

Module DetailResponse.
Record t : Type := mk { detail : list (string * Py.value) }.

Definition annotations : list (string * Py.annotation) :=
  [("detail", Py.TDict Py.TStr Py.TAny)].

Definition dict (r : t) : Py.kwargs :=
  [("detail",
    Py.VDict (map (fun kv => (Py.VStr (fst kv), snd kv)) (detail r)))].

Definition init (lib : Pydantic.conversions) (kw : Py.kwargs) : option t :=
  match Pydantic.field (Pydantic.validate_dict_str_any lib) "detail" kw with
  | Some d => Some (mk d)
  | None => None
  end.
End DetailResponse.

(** ** The process and its clock *)

(** What one handler invocation (or the module load) can read from the
    system clock: [time.time()] and [datetime.utcnow()]. *)
Record Clock : Type := {
  time_time : float;
  utcnow : Py.datetime
}.

(** The module-level data of the service: [health.startup_time].  (The
    [app] and [router] objects only hold the routing table, which is
    [handler] below.) *)
Record Process : Type := { startup_time : float }.

(** Handlers run in a state monad over the process, reading the clock; a
    result of [None] is a raised exception. *)
Definition M (A : Type) : Type := Process -> Clock -> option A * Process.

Definition ret {A : Type} (a : A) : M A := fun p _ => (Some a, p).

Definition bind {A B : Type} (m : M A) (k : A -> M B) : M B :=
  fun p c =>
    match m p c with
    | (Some a, p') => k a p' c
    | (None, p') => (None, p')
    end.

Notation "x <- m ;; k" := (bind m (fun x => k))
  (at level 61, m at next level, right associativity).

Definition call_time_time : M float := fun p c => (Some (time_time c), p).
Definition call_utcnow : M Py.datetime := fun p c => (Some (utcnow c), p).
Definition global_startup_time : M float := fun p _ => (Some (startup_time p), p).

(** Calling a model class: the instance, or a [ValidationError]. *)
Definition construct {A : Type} (r : option A) : M A := fun p _ => (r, p).

(** ** [app/routers/health.py] *)

(** [startup_time = time.time()], run when the module is first imported. *)
Definition load_module (c : Clock) : Process :=
  {| startup_time := time_time c |}.

Section Handlers.
Variable lib : Pydantic.conversions.

Definition health_check : M HealthResponse.t :=
  now <- call_time_time ;;
  started <- global_startup_time ;;
  construct (HealthResponse.init lib
    [("status", Py.VStr "healthy");
     ("version", Py.VStr "1.0.0");
     ("uptime", Py.VFloat (now - started)%float)]).

(** ** [app/main.py] *)

Definition root : M MessageResponse.t :=
  now <- call_utcnow ;;
  construct (MessageResponse.init lib
    [("message", Py.VStr "Welcome to FastAPI with Alpine Docker! ");
     ("version", Py.VStr "1.0.0");
     ("timestamp", Py.VStr (Py.isoformat now))]).

Definition info : M (list (string * Py.value)) :=
  ret [("name", Py.VStr "FastAPI Demo API");
       ("version", Py.VStr "1.0.0");
       ("framework", Py.VStr "FastAPI");
       ("python_version", Py.VStr "3.11");
       ("server", Py.VStr "uvicorn");
       ("base_image", Py.VStr "python:3.11-alpine");
       ("docs", Py.VStr "/docs");
       ("redoc", Py.VStr "/redoc")].

(** *** Routing *)

Inductive Endpoint : Type := GET_root | GET_api_info | GET_health.

Definition path (e : Endpoint) : string :=
  match e with
  | GET_root => "/"
  | GET_api_info => "/api/info"
  | GET_health => "/health"
  end.

(** What a handler hands back to the framework. *)
Inductive Returned : Type :=
| RMessage (m : MessageResponse.t)
| RHealth (h : HealthResponse.t)
| RDetail (d : DetailResponse.t)
| RDict (d : list (string * Py.value)).

Definition handler (e : Endpoint) : M Returned :=
  match e with
  | GET_root => m <- root ;; ret (RMessage m)
  | GET_api_info => d <- info ;; ret (RDict d)
  | GET_health => h <- health_check ;; ret (RHealth h)
  end.

(** A run of the process: each request is served at its own reading of
    the clock, the process state being threaded through. *)
Fixpoint serve (p : Process) (reqs : list (Endpoint * Clock))
  : list (option Returned) * Process :=
  match reqs with
  | [] => ([], p)
  | (e, c) :: rest =>
      let '(r, p') := handler e p c in
      let '(rs, p'') := serve p' rest in
      (r :: rs, p'')
  end.

(** The process from its start: the module is loaded at [c0], then the
    requests are served. *)
Definition run (c0 : Clock) (reqs : list (Endpoint * Clock))
  : list (option Returned) * Process :=
  serve (load_module c0) reqs.
End Handlers.

(** ** Vocabulary of the statements *)

(** The metadata object of [GET /api/info], key by key. *)
Definition info_spec (key : string) : option string :=
  if String.eqb key "name" then Some "FastAPI Demo API"
  else if String.eqb key "version" then Some "1.0.0"
  else if String.eqb key "framework" then Some "FastAPI"
  else if String.eqb key "python_version" then Some "3.11"
  else if String.eqb key "server" then Some "uvicorn"
  else if String.eqb key "base_image" then Some "python:3.11-alpine"
  else if String.eqb key "docs" then Some "/docs"
  else if String.eqb key "redoc" then Some "/redoc"
  else None.

(** A response with its clock-dependent field blanked: the [timestamp] of a
    [MessageResponse], the [uptime] of a [HealthResponse]. *)
Definition fixed_part (r : Returned) : Returned :=
  match r with
  | RMessage m =>
      RMessage (MessageResponse.mk (MessageResponse.message m)
                  (MessageResponse.version m) "")
  | RHealth h =>
      RHealth (HealthResponse.mk (HealthResponse.status h)
                 (HealthResponse.version h) 0%float)
  | RDetail d => RDetail d
  | RDict d => RDict d
  end.

(** Two invocations of an endpoint read the same thing from the clock:
    [root] calls [datetime.utcnow()], [health_check] calls [time.time()],
    [info] calls neither. *)
Definition same_reading (e : Endpoint) (c1 c2 : Clock) : Prop :=
  match e with
  | GET_root => utcnow c1 = utcnow c2
  | GET_api_info => True
  | GET_health => time_time c1 = time_time c2
  end.

(** [n] requests to one endpoint, one per clock reading. *)
Definition repeated (e : Endpoint) (clocks : list Clock)
  : list (Endpoint * Clock) :=
  map (fun c => (e, c)) clocks.


Definition endpoint_eqb (a b : Endpoint) : bool :=
  match a, b with
  | GET_root, GET_root => true
  | GET_api_info, GET_api_info => true
  | GET_health, GET_health => true
  | _, _ => false
  end.

(** The clock readings at which the requests to [e] were served, in the
    order of the calls. *)
Definition readings_of (e : Endpoint) (reqs : list (Endpoint * Clock))
  : list Clock :=
  map snd (filter (fun r => endpoint_eqb (fst r) e) reqs).

(** The [timestamp]s of the [MessageResponse]s of a run, and the [uptime]s
    of its [HealthResponse]s, in the order of the calls. *)
Definition timestamps (rs : list (option Returned)) : list string :=
  flat_map (fun r => match r with
                     | Some (RMessage m) => [MessageResponse.timestamp m]
                     | _ => []
                     end) rs.

Definition uptimes (rs : list (option Returned)) : list float :=
  flat_map (fun r => match r with
                     | Some (RHealth h) => [HealthResponse.uptime h]
                     | _ => []
                     end) rs.

(** The order of two readings of a text that may fail to parse: both must
    parse, and be in order. *)
Definition parsed_leb (a b : option Py.datetime) : bool :=
  match a, b with
  | Some x, Some y => Py.datetime_leb x y
  | _, _ => false
  end.

(** The clock of a run, at the calls of one endpoint, never goes back. *)
Definition utcnow_never_goes_back (reqs : list (Endpoint * Clock)) : bool :=
  Py.nondecreasing Py.datetime_leb (map utcnow (readings_of GET_root reqs)).

(** The [time.time()] readings of a run that matter to [/health]: the one
    taken at module load, then those of the [GET /health] calls. *)
Definition health_readings (c0 : Clock) (reqs : list (Endpoint * Clock))
  : list float :=
  time_time c0 :: map time_time (readings_of GET_health reqs).

(** [time.time()] returns a finite number. *)
Definition readings_finite (c0 : Clock) (reqs : list (Endpoint * Clock))
  : bool :=
  forallb is_finite (health_readings c0 reqs).

(** The wall clock is not set back between the module load and the calls,
    nor between two calls. *)
Definition time_never_goes_back (c0 : Clock) (reqs : list (Endpoint * Clock))
  : bool :=
  Py.nondecreasing PrimFloat.leb (health_readings c0 reqs).

(** ** Binary64 numbers as integers

    Every finite binary64 number is a multiple of [2 ^ -1074], so a number
    and the exact difference of two numbers are integers once counted in
    that unit. *)

Module Binary64.

(** A key beyond every finite number, for the infinities. *)
Definition infinite_key : Z := 2 ^ 2100.

(** The value of a number in units of [2 ^ -1074]. *)
Definition key (f : spec_float) : Z :=
  match f with
  | S754_zero _ => 0
  | S754_finite s m e => cond_Zopp s (Zpos m * 2 ^ (e + 1074))
  | S754_infinity s => cond_Zopp s infinite_key
  | S754_nan => 0
  end.

(** [n / 2 ^ sh], rounded to the nearest integer, ties to even. *)
Definition rne_shift (n sh : Z) : Z :=
  let q := n / 2 ^ sh in
  match 2 * (n mod 2 ^ sh) ?= 2 ^ sh with
  | Lt => q
  | Eq => if Z.even q then q else q + 1
  | Gt => q + 1
  end.

(** The number of bits of [n] beyond the 53 of a mantissa. *)
Definition excess (n : Z) : Z := Z.max (Z.log2 n + 1 - 53) 0.

(** [n] rounded to 53 significant bits. *)
Definition rounded (n : Z) : Z := rne_shift n (excess n) * 2 ^ excess n.

(** The key of the binary64 number nearest to a positive [n]: the rounded
    value, or the infinity when it overflows. *)
Definition round_pos (n : Z) : Z :=
  if 2 ^ 2098 <=? rounded n then infinite_key else rounded n.

Definition round_key (n : Z) : Z :=
  match n with
  | Z0 => 0
  | Zpos _ => round_pos n
  | Zneg p => - round_pos (Zpos p)
  end.

(** The location of a remainder [r] of a division by [2 ^ k]. *)
Definition loc_of (r k : Z) : location :=
  if r =? 0 then loc_Exact else loc_Inexact (2 * r ?= 2 ^ k).

(** [mrs] is [n] shifted right by [k] bits, with its round and sticky
    bits. *)
Definition shifted (n k : Z) (mrs : shr_record) : Prop :=
  shr_m mrs = n / 2 ^ k /\
  loc_of_shr_record mrs = loc_of (n mod 2 ^ k) k.

Definition finite_or_zero (f : spec_float) : bool :=
  match f with
  | S754_zero _ | S754_finite _ _ _ => true
  | S754_infinity _ | S754_nan => false
  end.

Definition not_nan (f : spec_float) : bool :=
  match f with
  | S754_nan => false
  | _ => true
  end.

End Binary64.

(** The value of a float in units of [2 ^ -1074] (an integer for every
    finite float). *)
Definition units (x : float) : Z := Binary64.key (Prim2SF x).

(** ** Declared response models

    The [response_model] argument of the route decorators:
    [@app.get("/", response_model=MessageResponse)],
    [@app.get("/api/info")] (none) and
    [@router.get("/health", response_model=HealthResponse)]. *)

Inductive Model : Type := MHealthResponse | MMessageResponse | MDetailResponse.

Definition response_model (e : Endpoint) : option Model :=
  match e with
  | GET_root => Some MMessageResponse
  | GET_api_info => None
  | GET_health => Some MHealthResponse
  end.

(** The model class a returned value is an instance of, if any. *)
Definition model_of (v : Returned) : option Model :=
  match v with
  | RMessage _ => Some MMessageResponse
  | RHealth _ => Some MHealthResponse
  | RDetail _ => Some MDetailResponse
  | RDict _ => None
  end.

(** * Properties *)

(** ** Binary64 subtraction keeps the order of the clock

    [time.time() - startup_time] is a binary64 subtraction: the exact
    difference, rounded to nearest-even.  The lemmas below relate the
    specification of that operation ([SpecFloat.SFsub], which the primitive
    floats implement) to the rounding [Binary64.round_key] of an integer,
    and derive that subtracting a fixed reading is monotone. *)

Module Binary64Facts.
Import Binary64.


Lemma rne_shift_bounds (n sh : Z) :
  0 <= sh -> n / 2 ^ sh <= rne_shift n sh <= n / 2 ^ sh + 1.
Proof.
  intros Hsh. unfold rne_shift.
  destruct (2 * (n mod 2 ^ sh) ?= 2 ^ sh); [destruct (Z.even _) | |]; lia.
Qed.

Lemma rne_shift_exact (n sh : Z) :
  0 <= sh -> n mod 2 ^ sh = 0 -> rne_shift n sh = n / 2 ^ sh.
Proof.
  intros Hsh Hr. unfold rne_shift. rewrite Hr.
  assert (0 < 2 ^ sh) by (apply Z.pow_pos_nonneg; lia).
  destruct (Z.compare_spec (2 * 0) (2 ^ sh)); lia.
Qed.

Lemma rne_shift_mono (n1 n2 sh : Z) :
  0 <= sh -> n1 <= n2 -> rne_shift n1 sh <= rne_shift n2 sh.
Proof.
  intros Hsh Hn.
  assert (Hp : 0 < 2 ^ sh) by (apply Z.pow_pos_nonneg; lia).
  pose proof (Z.div_le_mono n1 n2 (2 ^ sh) Hp Hn) as Hq.
  pose proof (rne_shift_bounds n1 sh Hsh) as B1.
  pose proof (rne_shift_bounds n2 sh Hsh) as B2.
  destruct (Z.eq_dec (n1 / 2 ^ sh) (n2 / 2 ^ sh)) as [E | NE]; [| lia].
  pose proof (Z.div_mod n1 (2 ^ sh) ltac:(lia)) as D1.
  pose proof (Z.div_mod n2 (2 ^ sh) ltac:(lia)) as D2.
  assert (Hr : n1 mod 2 ^ sh <= n2 mod 2 ^ sh) by (rewrite E in D1; lia).
  unfold rne_shift. rewrite E.
  destruct (Z.compare_spec (2 * (n1 mod 2 ^ sh)) (2 ^ sh));
    destruct (Z.compare_spec (2 * (n2 mod 2 ^ sh)) (2 ^ sh));
    destruct (Z.even (n2 / 2 ^ sh)); lia.
Qed.

Lemma log2_bounds (n : Z) :
  0 < n -> 2 ^ Z.log2 n <= n < 2 ^ (Z.log2 n + 1).
Proof.
  intros Hn. replace (Z.log2 n + 1) with (Z.succ (Z.log2 n)) by lia.
  apply Z.log2_spec. exact Hn.
Qed.

Lemma excess_nonneg (n : Z) : 0 <= excess n.
Proof. unfold excess. lia. Qed.

Lemma excess_mono (n1 n2 : Z) : 0 < n1 -> n1 <= n2 -> excess n1 <= excess n2.
Proof.
  intros H1 H2. unfold excess.
  pose proof (Z.log2_le_mono n1 n2 H2). lia.
Qed.

Lemma rounded_small (n : Z) : 0 < n -> excess n = 0 -> rounded n = n.
Proof.
  intros Hn He. unfold rounded. rewrite He.
  rewrite rne_shift_exact by (try lia; apply Z.mod_1_r).
  rewrite Z.pow_0_r, Z.div_1_r. lia.
Qed.

Lemma quotient_bounds (n : Z) :
  0 < n -> 0 < excess n ->
  2 ^ 52 <= n / 2 ^ excess n < 2 ^ 53.
Proof.
  intros Hn He.
  assert (Hl : Z.log2 n = excess n + 52) by (unfold excess in *; lia).
  pose proof (log2_bounds n Hn) as [Hlo Hhi]. rewrite Hl in Hlo, Hhi.
  assert (Hp : 0 < 2 ^ excess n) by (apply Z.pow_pos_nonneg; lia).
  rewrite Z.pow_add_r in Hlo by lia.
  replace (excess n + 52 + 1) with (excess n + 53) in Hhi by lia.
  rewrite Z.pow_add_r in Hhi by lia.
  split.
  - apply Z.div_le_lower_bound; lia.
  - apply Z.div_lt_upper_bound; lia.
Qed.

Lemma rounded_bounds (n : Z) :
  0 < n ->
  2 ^ (Z.log2 n) <= rounded n <= 2 ^ (Z.log2 n + 1).
Proof.
  intros Hn. pose proof (excess_nonneg n) as He.
  destruct (Z.eq_dec (excess n) 0) as [E0 | NE0].
  - rewrite rounded_small by assumption. pose proof (log2_bounds n Hn). lia.
  - assert (Hpos : 0 < excess n) by lia.
    pose proof (quotient_bounds n Hn Hpos) as [Qlo Qhi].
    pose proof (rne_shift_bounds n (excess n) He) as [Rlo Rhi].
    assert (Hl : Z.log2 n = excess n + 52) by (unfold excess in *; lia).
    assert (Hp : 0 < 2 ^ excess n) by (apply Z.pow_pos_nonneg; lia).
    unfold rounded. rewrite Hl.
    replace (excess n + 52 + 1) with (53 + excess n) by lia.
    replace (excess n + 52) with (52 + excess n) by lia.
    rewrite !Z.pow_add_r by lia. split.
    + apply Z.mul_le_mono_nonneg_r; lia.
    + apply Z.mul_le_mono_nonneg_r; lia.
Qed.

Lemma rounded_mono (n1 n2 : Z) :
  0 < n1 -> n1 <= n2 -> rounded n1 <= rounded n2.
Proof.
  intros H1 H2.
  pose proof (excess_mono n1 n2 H1 H2) as He.
  destruct (Z.eq_dec (excess n1) (excess n2)) as [E | NE].
  - unfold rounded. rewrite E.
    apply Z.mul_le_mono_nonneg_r.
    + apply Z.pow_nonneg; lia.
    + apply rne_shift_mono; [apply excess_nonneg | exact H2].
  - assert (Hlt : Z.log2 n1 + 1 <= Z.log2 n2).
    { unfold excess in *. lia. }
    pose proof (rounded_bounds n1 H1) as [_ Hhi].
    pose proof (rounded_bounds n2 ltac:(lia)) as [Hlo _].
    assert (2 ^ (Z.log2 n1 + 1) <= 2 ^ Z.log2 n2)
      by (apply Z.pow_le_mono_r; lia).
    lia.
Qed.

Lemma round_pos_pos (n : Z) : 0 < n -> 0 < round_pos n.
Proof.
  intros Hn. unfold round_pos. fold (rounded n).
  pose proof (rounded_bounds n Hn) as [Hlo _].
  assert (0 < 2 ^ Z.log2 n) by (apply Z.pow_pos_nonneg; [lia | apply Z.log2_nonneg]).
  destruct (2 ^ 2098 <=? rounded n); [reflexivity | lia].
Qed.

Lemma round_pos_mono (n1 n2 : Z) :
  0 < n1 -> n1 <= n2 -> round_pos n1 <= round_pos n2.
Proof.
  intros H1 H2. unfold round_pos. fold (rounded n1) (rounded n2).
  pose proof (rounded_mono n1 n2 H1 H2) as Hm.
  destruct (Z.leb_spec (2 ^ 2098) (rounded n1));
    destruct (Z.leb_spec (2 ^ 2098) (rounded n2)); try lia.
  unfold infinite_key.
  assert (2 ^ 2098 <= 2 ^ 2100) by (apply Z.pow_le_mono_r; lia). lia.
Qed.

Lemma round_key_nonneg (n : Z) : 0 <= n -> 0 <= round_key n.
Proof.
  destruct n as [| p | p]; simpl; intros H; [lia | | lia].
  pose proof (round_pos_pos (Zpos p)). lia.
Qed.

Lemma round_key_mono (n1 n2 : Z) : n1 <= n2 -> round_key n1 <= round_key n2.
Proof.
  intros H.
  destruct n1 as [| p1 | p1]; destruct n2 as [| p2 | p2];
    cbn [round_key]; try lia.
  - pose proof (round_pos_pos (Zpos p2)). lia.
  - apply round_pos_mono; lia.
  - pose proof (round_pos_pos (Zpos p1)). lia.
  - pose proof (round_pos_pos (Zpos p1)). pose proof (round_pos_pos (Zpos p2)). lia.
  - assert (round_pos (Zpos p2) <= round_pos (Zpos p1))
      by (apply round_pos_mono; lia).
    lia.
Qed.


(** *** The shifts of [SpecFloat] *)

Lemma digits2_pos_size (m : positive) : digits2_pos m = Pos.size m.
Proof. induction m as [m IH | m IH |]; simpl; congruence. Qed.

Lemma digits2_pos_log2 (m : positive) :
  Zpos (digits2_pos m) = Z.log2 (Zpos m) + 1.
Proof.
  rewrite digits2_pos_size. destruct m as [m | m |]; simpl; try reflexivity;
    rewrite Pos.add_1_r; reflexivity.
Qed.

Lemma Zdigits2_log2 (n : Z) : 0 < n -> Zdigits2 n = Z.log2 n + 1.
Proof.
  destruct n as [| p | p]; try lia. intros _. apply digits2_pos_log2.
Qed.

Lemma shift_left_value (m k : positive) :
  Zpos (Pos.iter xO m k) = Zpos m * 2 ^ Zpos k.
Proof.
  change (Pos.iter xO m k) with (shift_pos k m).
  rewrite shift_pos_correct, Z.pow_pos_fold. lia.
Qed.

Lemma shifted_0 (n : Z) : shifted n 0 (Build_shr_record n false false).
Proof.
  split; simpl.
  - rewrite Z.div_1_r. reflexivity.
  - rewrite Z.mod_1_r. reflexivity.
Qed.

Lemma shr_1_nonneg (m : Z) (r s : bool) :
  0 <= m ->
  shr_1 (Build_shr_record m r s) =
  Build_shr_record (m / 2) (Z.odd m) (r || s).
Proof.
  intros Hm. destruct m as [| [p | p |] | p]; try lia; cbn [shr_1 Z.odd].
  - reflexivity.
  - rewrite Pos2Z.inj_xI. f_equal.
    apply Z.div_unique with (r := 1); lia.
  - rewrite Pos2Z.inj_xO. f_equal.
    apply Z.div_unique with (r := 0); lia.
  - reflexivity.
Qed.

Lemma shifted_step (n k : Z) (mrs : shr_record) :
  0 <= n -> 0 <= k -> shifted n k mrs -> shifted n (k + 1) (shr_1 mrs).
Proof.
  intros Hn Hk [Hm Hloc]. destruct mrs as [m r s]. cbn [shr_m] in Hm.
  assert (Hp : 0 < 2 ^ k) by (apply Z.pow_pos_nonneg; lia).
  assert (Hm0 : 0 <= m) by (rewrite Hm; apply Z.div_pos; lia).
  rewrite shr_1_nonneg by exact Hm0.
  assert (Hpow : 2 ^ (k + 1) = 2 ^ k * 2) by (rewrite Z.pow_add_r; lia).
  pose proof (Z.div_mod n (2 ^ k) ltac:(lia)) as Dn.
  pose proof (Z.mod_pos_bound n (2 ^ k) Hp) as Bn.
  pose proof (Z.div_mod m 2 ltac:(lia)) as Dm.
  pose proof (Z.mod_pos_bound m 2 ltac:(lia)) as Bm.
  assert (Hq : n / 2 ^ (k + 1) = m / 2).
  { rewrite Hpow, <- Z.div_div by lia. rewrite Hm. reflexivity. }
  assert (Hr : n mod 2 ^ (k + 1) = n mod 2 ^ k + 2 ^ k * (m mod 2)).
  { symmetry. apply Z.mod_unique with (q := m / 2); [nia | nia]. }
  split; cbn [shr_m]; [symmetry; exact Hq |].
  rewrite Hr. rewrite Zmod_odd in *.
  unfold loc_of in *. rewrite Hpow.
  destruct (Z.eqb_spec (n mod 2 ^ k) 0) as [E0 | NE0];
    [| destruct (Z.compare_spec (2 * (n mod 2 ^ k)) (2 ^ k))];
    destruct r, s; try discriminate Hloc;
    destruct (Z.odd m); cbn [orb loc_of_shr_record];
    match goal with
    | |- context [?a =? 0] => destruct (Z.eqb_spec a 0); [try lia |]
    end;
    try reflexivity;
    match goal with
    | |- context [?a ?= ?b] => destruct (Z.compare_spec a b)
    end;
    first [reflexivity | lia].
Qed.

Lemma shifted_iter (n : Z) (p : positive) :
  0 <= n ->
  forall (k : Z) (mrs : shr_record),
  0 <= k -> shifted n k mrs -> shifted n (k + Zpos p) (iter_pos shr_1 p mrs).
Proof.
  intros Hn. induction p as [p IH | p IH |]; intros k mrs Hk H; cbn [iter_pos].
  - replace (k + Zpos p~1) with (k + 1 + Zpos p + Zpos p) by lia.
    apply IH; [lia |]. apply IH; [lia |]. apply shifted_step; assumption.
  - replace (k + Zpos p~0) with (k + Zpos p + Zpos p) by lia.
    apply IH; [lia |]. apply IH; assumption.
  - apply shifted_step; assumption.
Qed.

(** [shr] by [k] bits, for any [k]: nothing happens when [k <= 0]. *)
Lemma shifted_shr (n e k : Z) :
  0 <= n ->
  shifted n (Z.max k 0) (fst (shr (Build_shr_record n false false) e k)) /\
  snd (shr (Build_shr_record n false false) e k) = e + Z.max k 0.
Proof.
  intros Hn. destruct k as [| p | p]; cbn [shr fst snd].
  - split; [apply shifted_0 | lia].
  - split; [| lia]. replace (Z.max (Zpos p) 0) with (0 + Zpos p) by lia.
    apply shifted_iter; [assumption | lia | apply shifted_0].
  - split; [apply shifted_0 | lia].
Qed.

Lemma round_nearest_even_shifted (n k : Z) (mrs : shr_record) :
  0 <= k -> shifted n k mrs ->
  round_nearest_even (shr_m mrs) (loc_of_shr_record mrs) = rne_shift n k.
Proof.
  intros Hk [Hm Hloc]. rewrite Hm, Hloc. unfold loc_of, rne_shift.
  assert (Hp : 0 < 2 ^ k) by (apply Z.pow_pos_nonneg; lia).
  destruct (Z.eqb_spec (n mod 2 ^ k) 0) as [E | NE].
  - rewrite E. cbn [round_nearest_even].
    destruct (Z.compare_spec (2 * 0) (2 ^ k)); first [reflexivity | lia].
  - cbn [round_nearest_even].
    destruct (2 * (n mod 2 ^ k) ?= 2 ^ k); reflexivity.
Qed.


(** *** Rounding to binary64 *)

Lemma rne_shift_scale (a k j : Z) :
  0 <= k -> 0 <= j -> rne_shift (a * 2 ^ j) (k + j) = rne_shift a k.
Proof.
  intros Hk Hj. unfold rne_shift.
  assert (Hpk : 0 < 2 ^ k) by (apply Z.pow_pos_nonneg; lia).
  assert (Hpj : 0 < 2 ^ j) by (apply Z.pow_pos_nonneg; lia).
  rewrite Z.pow_add_r by lia.
  rewrite Z.div_mul_cancel_r by lia.
  rewrite Z.mul_mod_distr_r by lia.
  replace (2 * (a mod 2 ^ k * 2 ^ j)) with (2 * (a mod 2 ^ k) * 2 ^ j) by lia.
  rewrite <- Zmult_compare_compat_r by lia. reflexivity.
Qed.

Lemma fexp_eq (e : Z) : fexp prec emax e = Z.max (e - 53) (-1074).
Proof. reflexivity. Qed.

(** The second shift of [binary_round_aux]: a mantissa that the rounding
    carried to [2 ^ 53] is brought back to 53 bits. *)
Lemma renormalize (Q fe : Z) :
  -1074 <= fe -> 0 < Q -> Q <= 2 ^ 53 ->
  (fe = -1074 /\ Q < 2 ^ 53 \/ 2 ^ 52 <= Q) ->
  exists (m2 : positive) (e2 : Z),
    shr_fexp prec emax Q fe loc_Exact =
      (Build_shr_record (Zpos m2) false false, e2) /\
    Zpos m2 * 2 ^ (e2 + 1074) = Q * 2 ^ (fe + 1074) /\
    Zpos m2 < 2 ^ 53 /\
    (e2 = -1074 \/ 2 ^ 52 <= Zpos m2) /\
    -1074 <= e2.
Proof.
  intros Hfe HQ Hle Hcase.
  unfold shr_fexp. rewrite fexp_eq, Zdigits2_log2 by exact HQ.
  cbn [shr_record_of_loc].
  destruct (Z.eq_dec Q (2 ^ 53)) as [E | NE].
  - subst Q. rewrite Z.log2_pow2 by lia.
    replace (Z.max (53 + 1 + fe - 53) (-1074) - fe) with 1 by lia.
    cbn [shr iter_pos]. rewrite shr_1_nonneg by lia.
    exists (Z.to_pos (2 ^ 52)), (fe + 1).
    change (Z.pos (Z.to_pos (2 ^ 52))) with (2 ^ 52).
    change (2 ^ 53 / 2) with (2 ^ 52).
    change (Z.odd (2 ^ 53)) with false.
    repeat split; try lia.
    + replace (fe + 1 + 1074) with (1 + (fe + 1074)) by lia.
      rewrite Z.pow_add_r by lia. change (2 ^ 53) with (2 ^ 52 * 2 ^ 1). lia.
  - assert (Hlt : Q < 2 ^ 53) by lia.
    assert (Hlog : Z.log2 Q < 53) by (apply Z.log2_lt_pow2; lia).
    assert (Hfix : Z.max (Z.log2 Q + 1 + fe - 53) (-1074) - fe <= 0).
    { destruct Hcase as [[-> _] | Hbig]; [lia |].
      assert (52 <= Z.log2 Q) by (apply Z.log2_le_pow2; lia). lia. }
    exists (Z.to_pos Q), fe. rewrite Z2Pos.id by exact HQ.
    repeat split; try lia.
    destruct (Z.max (Z.log2 Q + 1 + fe - 53) (-1074) - fe); try lia; reflexivity.
Qed.

Lemma binary_round_aux_key (s : bool) (mz : positive) (ez : Z) :
  -1074 <= ez ->
  ez <= fexp prec emax (Zpos (digits2_pos mz) + ez) ->
  binary_round_aux prec emax s (Zpos mz) ez loc_Exact <> S754_nan /\
  key (binary_round_aux prec emax s (Zpos mz) ez loc_Exact) =
    cond_Zopp s (round_pos (Zpos mz * 2 ^ (ez + 1074))).
Proof.
  intros Hez Hfe. rewrite fexp_eq, digits2_pos_log2 in Hfe.
  set (N := Zpos mz * 2 ^ (ez + 1074)).
  set (fe := Z.max (Z.log2 (Zpos mz) + 1 + ez - 53) (-1074)) in *.
  assert (Hp : 0 < 2 ^ (ez + 1074)) by (apply Z.pow_pos_nonneg; lia).
  assert (HN : 0 < N) by (unfold N; lia).
  assert (HlogN : Z.log2 N = Z.log2 (Zpos mz) + (ez + 1074)).
  { unfold N. rewrite Z.log2_mul_pow2 by lia. lia. }
  assert (Hex : excess N = fe + 1074).
  { unfold excess. rewrite HlogN. unfold fe. lia. }
  unfold binary_round_aux.
  (* first shift *)
  assert (Hfirst : shr_fexp prec emax (Zpos mz) ez loc_Exact =
                   shr (Build_shr_record (Zpos mz) false false) ez (fe - ez)).
  { unfold shr_fexp. rewrite fexp_eq.
    change (Zdigits2 (Zpos mz)) with (Zpos (digits2_pos mz)).
    rewrite digits2_pos_log2. reflexivity. }
  rewrite Hfirst.
  destruct (shifted_shr (Zpos mz) ez (fe - ez) ltac:(lia)) as [Hsh He1].
  destruct (shr {| shr_m := Zpos mz; shr_r := false; shr_s := false |} ez (fe - ez))
    as [mrs1 e1].
  cbn [fst snd] in Hsh, He1.
  replace (Z.max (fe - ez) 0) with (fe - ez) in * by lia.
  rewrite (round_nearest_even_shifted (Zpos mz) (fe - ez) mrs1 ltac:(lia) Hsh).
  replace e1 with fe by lia.
  (* the rounded mantissa *)
  assert (HQ : rne_shift (Zpos mz) (fe - ez) = rne_shift N (excess N)).
  { rewrite Hex. unfold N.
    replace (fe + 1074) with ((fe - ez) + (ez + 1074)) by lia.
    rewrite rne_shift_scale by lia. reflexivity. }
  rewrite HQ.
  set (Q := rne_shift N (excess N)).
  pose proof (rne_shift_bounds N (excess N) (excess_nonneg N)) as [Qlo Qhi].
  fold Q in Qlo, Qhi.
  assert (Hcase : 0 < Q /\ Q <= 2 ^ 53 /\
                  (fe = -1074 /\ Q < 2 ^ 53 \/ 2 ^ 52 <= Q)).
  { destruct (Z.eq_dec (excess N) 0) as [E0 | NE0].
    - assert (HQN : Q = N).
      { unfold Q. rewrite E0. rewrite rne_shift_exact by (try lia; apply Z.mod_1_r).
        rewrite Z.pow_0_r, Z.div_1_r. reflexivity. }
      assert (N < 2 ^ 53).
      { apply Z.log2_lt_pow2; [lia |]. unfold excess in E0. lia. }
      rewrite HQN. repeat split; try lia.
    - pose proof (excess_nonneg N).
      pose proof (quotient_bounds N HN ltac:(lia)) as [Hlo Hhi].
      repeat split; try lia. }
  destruct Hcase as [HQpos [HQle HQcase]].
  destruct (renormalize Q fe ltac:(lia) HQpos HQle HQcase)
    as [m2 [e2 [Hshr [Hval [Hm2 [Hsmall He2]]]]]].
  rewrite Hshr. cbn [shr_m].
  assert (Hrounded : rounded N = Zpos m2 * 2 ^ (e2 + 1074)).
  { unfold rounded. fold Q. rewrite Hex. lia. }
  assert (Hp2 : 0 < 2 ^ (e2 + 1074)) by (apply Z.pow_pos_nonneg; lia).
  unfold round_pos. fold (rounded N). rewrite Hrounded.
  change (emax - prec) with 971.
  destruct (Z.leb_spec e2 971) as [Hfin | Hinf].
  - split; [discriminate |].
    assert (Hlt : Zpos m2 * 2 ^ (e2 + 1074) < 2 ^ 2098).
    { assert (2 ^ (e2 + 1074) <= 2 ^ 2045) by (apply Z.pow_le_mono_r; lia).
      change (2 ^ 2098) with (2 ^ 53 * 2 ^ 2045). nia. }
    destruct (Z.leb_spec (2 ^ 2098) (Zpos m2 * 2 ^ (e2 + 1074))); [lia |].
    reflexivity.
  - split; [discriminate |].
    assert (Hge : 2 ^ 2098 <= Zpos m2 * 2 ^ (e2 + 1074)).
    { destruct Hsmall as [-> | Hbig]; [lia |].
      assert (2 ^ 2046 <= 2 ^ (e2 + 1074)) by (apply Z.pow_le_mono_r; lia).
      change (2 ^ 2098) with (2 ^ 52 * 2 ^ 2046). nia. }
    destruct (Z.leb_spec (2 ^ 2098) (Zpos m2 * 2 ^ (e2 + 1074))); [| lia].
    reflexivity.
Qed.


Lemma binary_round_key (s : bool) (m : positive) (e : Z) :
  -1074 <= e ->
  binary_round prec emax s m e <> S754_nan /\
  key (binary_round prec emax s m e) =
    cond_Zopp s (round_pos (Zpos m * 2 ^ (e + 1074))).
Proof.
  intros He. unfold binary_round, shl_align.
  rewrite fexp_eq, digits2_pos_log2.
  set (fe := Z.max (Z.log2 (Zpos m) + 1 + e - 53) (-1074)).
  assert (Hfe : -1074 <= fe) by (unfold fe; lia).
  destruct (fe - e) as [| k | k] eqn:Hk.
  - apply binary_round_aux_key; [lia |].
    rewrite fexp_eq, digits2_pos_log2. fold fe. lia.
  - apply binary_round_aux_key; [lia |].
    rewrite fexp_eq, digits2_pos_log2. fold fe. lia.
  - assert (Hval : Zpos (Pos.iter xO m k) * 2 ^ (fe + 1074) =
                   Zpos m * 2 ^ (e + 1074)).
    { rewrite shift_left_value.
      replace (e + 1074) with (Zpos k + (fe + 1074)) by lia.
      rewrite (Z.pow_add_r 2 (Zpos k) (fe + 1074)) by lia. ring. }
    rewrite <- Hval. apply binary_round_aux_key; [lia |].
    rewrite fexp_eq, digits2_pos_log2, shift_left_value.
    rewrite Z.log2_mul_pow2 by lia.
    replace (Zpos k + Z.log2 (Zpos m) + 1 + fe - 53)
      with (Z.log2 (Zpos m) + 1 + e - 53) by lia.
    fold fe. lia.
Qed.

Lemma round_key_pos (n : Z) : 0 < n -> round_key n = round_pos n.
Proof. destruct n; try lia. reflexivity. Qed.

Lemma round_key_opp (n : Z) : round_key (- n) = - round_key n.
Proof. destruct n; cbn [Z.opp round_key]; lia. Qed.

Lemma binary_normalize_key (M e : Z) (szero : bool) :
  -1074 <= e ->
  binary_normalize prec emax M e szero <> S754_nan /\
  key (binary_normalize prec emax M e szero) = round_key (M * 2 ^ (e + 1074)).
Proof.
  intros He.
  assert (Hp : 0 < 2 ^ (e + 1074)) by (apply Z.pow_pos_nonneg; lia).
  destruct M as [| m | m]; cbn [binary_normalize].
  - split; [discriminate | reflexivity].
  - rewrite round_key_pos by lia. apply (binary_round_key false m e He).
  - replace (Zneg m * 2 ^ (e + 1074)) with (- (Zpos m * 2 ^ (e + 1074))) by lia.
    rewrite round_key_opp, round_key_pos by lia.
    apply (binary_round_key true m e He).
Qed.

(** *** Valid numbers *)

Lemma bounded_facts (m : positive) (e : Z) :
  bounded prec emax m e = true ->
  -1074 <= e <= 971 /\
  Z.max (Z.log2 (Zpos m) + 1 + e - 53) (-1074) = e /\
  0 < Zpos m * 2 ^ (e + 1074) < 2 ^ 2098.
Proof.
  unfold bounded, canonical_mantissa. rewrite fexp_eq, digits2_pos_log2.
  intros H. apply andb_prop in H as [Hc Hb].
  apply Z.eqb_eq in Hc. apply Z.leb_le in Hb. change (emax - prec) with 971 in Hb.
  assert (He : -1074 <= e) by lia.
  split; [lia |]. split; [exact Hc |].
  assert (Hp : 0 < 2 ^ (e + 1074)) by (apply Z.pow_pos_nonneg; lia).
  split; [lia |].
  assert (Hm : Zpos m < 2 ^ 53).
  { apply Z.log2_lt_pow2; lia. }
  assert (2 ^ (e + 1074) <= 2 ^ 2045) by (apply Z.pow_le_mono_r; lia).
  change (2 ^ 2098) with (2 ^ 53 * 2 ^ 2045). nia.
Qed.

Lemma round_pos_canonical (m : positive) (e : Z) :
  bounded prec emax m e = true ->
  round_pos (Zpos m * 2 ^ (e + 1074)) = Zpos m * 2 ^ (e + 1074).
Proof.
  intros Hb. destruct (bounded_facts m e Hb) as [He [Hc [Hpos Hlt]]].
  set (N := Zpos m * 2 ^ (e + 1074)) in *.
  assert (HlogN : Z.log2 N = Z.log2 (Zpos m) + (e + 1074)).
  { unfold N. rewrite Z.log2_mul_pow2 by lia. lia. }
  assert (Hex : excess N = e + 1074) by (unfold excess; lia).
  unfold round_pos, rounded. rewrite Hex.
  assert (HQ : rne_shift N (e + 1074) = Zpos m).
  { unfold N. replace (e + 1074) with (0 + (e + 1074)) at 2 by lia.
    rewrite rne_shift_scale by lia.
    rewrite rne_shift_exact by (try lia; apply Z.mod_1_r).
    rewrite Z.pow_0_r, Z.div_1_r. reflexivity. }
  rewrite HQ. fold N.
  destruct (Z.leb_spec (2 ^ 2098) N); [lia | reflexivity].
Qed.

Lemma round_key_canonical (x : spec_float) :
  valid_binary x = true -> finite_or_zero x = true ->
  round_key (key x) = key x.
Proof.
  destruct x as [s | s | | s m e]; try discriminate; intros Hv _.
  - reflexivity.
  - cbn [key valid_binary] in *.
    destruct (bounded_facts m e Hv) as [_ [_ [Hpos _]]].
    destruct s; cbn [cond_Zopp].
    + rewrite round_key_opp, round_key_pos, round_pos_canonical by assumption.
      reflexivity.
    + rewrite round_key_pos, round_pos_canonical by assumption. reflexivity.
Qed.

Lemma shl_align_value (m : positive) (e e' : Z) :
  e' <= e -> Zpos (fst (shl_align m e e')) = Zpos m * 2 ^ (e - e').
Proof.
  intros H. unfold shl_align. destruct (e' - e) as [| k | k] eqn:Hk; cbn [fst].
  - replace (e - e') with 0 by lia. lia.
  - lia.
  - rewrite shift_left_value. f_equal. f_equal. lia.
Qed.

Lemma cond_Zopp_mul (s : bool) (a b : Z) : cond_Zopp s a * b = cond_Zopp s (a * b).
Proof. destruct s; cbn [cond_Zopp]; lia. Qed.

(** The difference of two finite numbers is the rounding of the exact
    difference. *)
Lemma SFsub_key (x y : spec_float) :
  valid_binary x = true -> valid_binary y = true ->
  finite_or_zero x = true -> finite_or_zero y = true ->
  SF64sub x y <> S754_nan /\
  key (SF64sub x y) = round_key (key x - key y).
Proof.
  intros Hx Hy Fx Fy. unfold SF64sub.
  destruct x as [sx | sx | | sx mx ex]; try discriminate;
    destruct y as [sy | sy | | sy my ey]; try discriminate.
  - destruct sx, sy; cbn; split; (discriminate || reflexivity).
  - cbn [SFsub]. split; [discriminate |].
    rewrite <- (round_key_canonical (S754_finite (negb sy) my ey)) by assumption.
    f_equal. cbn [key]. destruct sy; cbn [negb cond_Zopp]; lia.
  - cbn [SFsub]. split; [discriminate |].
    rewrite <- (round_key_canonical (S754_finite sx mx ex)) at 1 by assumption.
    f_equal. cbn [key]. lia.
  - cbn [SFsub valid_binary] in *.
    destruct (bounded_facts mx ex Hx) as [Hex _].
    destruct (bounded_facts my ey Hy) as [Hey _].
    set (ez := Z.min ex ey).
    assert (Hez : -1074 <= ez) by (unfold ez; lia).
    destruct (binary_normalize_key
                (cond_Zopp sx (Zpos (fst (shl_align mx ex ez))) -
                 cond_Zopp sy (Zpos (fst (shl_align my ey ez)))) ez false Hez)
      as [Hnan Hkey].
    split; [exact Hnan |]. rewrite Hkey. f_equal.
    rewrite !shl_align_value by (unfold ez; lia).
    rewrite Z.mul_sub_distr_r, !cond_Zopp_mul. cbn [key].
    rewrite <- !Z.mul_assoc, <- !Z.pow_add_r by (unfold ez; lia).
    replace (ex - ez + (ez + 1074)) with (ex + 1074) by lia.
    replace (ey - ez + (ez + 1074)) with (ey + 1074) by lia.
    reflexivity.
Qed.


(** *** The order of valid numbers is the order of their keys *)

Lemma canonical_lt (m1 m2 : positive) (e1 e2 : Z) :
  bounded prec emax m1 e1 = true -> bounded prec emax m2 e2 = true ->
  e1 < e2 ->
  Zpos m1 * 2 ^ (e1 + 1074) < Zpos m2 * 2 ^ (e2 + 1074).
Proof.
  intros H1 H2 Hlt.
  destruct (bounded_facts m1 e1 H1) as [He1 [Hc1 _]].
  destruct (bounded_facts m2 e2 H2) as [He2 [Hc2 _]].
  assert (Hm1 : Zpos m1 < 2 ^ 53) by (apply Z.log2_lt_pow2; lia).
  assert (Hm2 : 2 ^ 52 <= Zpos m2) by (apply Z.log2_le_pow2; lia).
  assert (Hp : 0 < 2 ^ (e1 + 1074)) by (apply Z.pow_pos_nonneg; lia).
  assert (Hpow : 2 * 2 ^ (e1 + 1074) <= 2 ^ (e2 + 1074)).
  { replace (2 * 2 ^ (e1 + 1074)) with (2 ^ (e1 + 1 + 1074)).
    - apply Z.pow_le_mono_r; lia.
    - replace (e1 + 1 + 1074) with (1 + (e1 + 1074)) by lia.
      rewrite Z.pow_add_r by lia. reflexivity. }
  change (2 ^ 53) with (2 * 2 ^ 52) in Hm1.
  assert (0 < 2 ^ 52) by reflexivity.
  nia.
Qed.

Lemma infinite_key_big : 2 ^ 2098 < infinite_key.
Proof. reflexivity. Qed.

Ltac key_compare :=
  match goal with
  | |- Some _ = Some (_ ?= _) =>
      f_equal; symmetry;
      first [ apply Z.compare_eq_iff; lia
            | apply Z.compare_lt_iff; lia
            | apply Z.compare_gt_iff; lia ]
  end.

Lemma SFcompare_key (x y : spec_float) :
  valid_binary x = true -> valid_binary y = true ->
  not_nan x = true -> not_nan y = true ->
  SFcompare x y = Some (key x ?= key y).
Proof.
  intros Hx Hy Nx Ny.
  destruct x as [sx | sx | | sx mx ex]; try discriminate Nx;
    destruct y as [sy | sy | | sy my ey]; try discriminate Ny;
    pose proof infinite_key_big as Hinf;
    cbn [valid_binary] in Hx, Hy;
    repeat match goal with
    | H : bounded prec emax ?m ?e = true |- _ =>
        let F := fresh "F" in
        pose proof (bounded_facts m e H) as [_ [_ F]];
        generalize dependent H
    end; intros;
    cbn [SFcompare key].
  - reflexivity.
  - destruct sy; cbn [cond_Zopp]; key_compare.
  - destruct sy; cbn [cond_Zopp]; key_compare.
  - destruct sx; cbn [cond_Zopp]; key_compare.
  - destruct sx, sy; cbn [cond_Zopp]; key_compare.
  - destruct sx, sy; cbn [cond_Zopp]; key_compare.
  - destruct sx; cbn [cond_Zopp]; key_compare.
  - destruct sx, sy; cbn [cond_Zopp]; key_compare.
  - change (Pos.compare_cont Eq mx my) with (Zpos mx ?= Zpos my).
    destruct sx, sy; cbn [cond_Zopp]; try key_compare.
    + rewrite Z.compare_opp.
      destruct (Z.compare_spec ex ey) as [E | L | G].
      * subst ey. rewrite <- Zmult_compare_compat_r by lia.
        rewrite (Z.compare_antisym (Zpos mx) (Zpos my)). reflexivity.
      * pose proof (canonical_lt mx my ex ey Hx Hy L). key_compare.
      * pose proof (canonical_lt my mx ey ex Hy Hx G). key_compare.
    + destruct (Z.compare_spec ex ey) as [E | L | G].
      * subst ey. rewrite <- Zmult_compare_compat_r by lia. reflexivity.
      * pose proof (canonical_lt mx my ex ey Hx Hy L). key_compare.
      * pose proof (canonical_lt my mx ey ex Hy Hx G). key_compare.
Qed.

Lemma SFleb_key (x y : spec_float) :
  valid_binary x = true -> valid_binary y = true ->
  not_nan x = true -> not_nan y = true ->
  SFleb x y = (key x <=? key y).
Proof.
  intros Hx Hy Nx Ny. unfold SFleb. rewrite SFcompare_key by assumption.
  unfold Z.leb. destruct (key x ?= key y); reflexivity.
Qed.


(** *** Python floats *)

Lemma Prim2SF_finite (x : float) :
  is_finite x = true -> finite_or_zero (Prim2SF x) = true.
Proof.
  unfold is_finite, Prim2SF. intros H.
  destruct (is_nan x); [discriminate H |].
  destruct (is_zero x); [reflexivity |].
  destruct (is_infinity x); [discriminate H |].
  destruct (Z.frexp x) as [r e].
  destruct (shr_fexp prec emax _ _ _) as [mrs e'].
  destruct (shr_m mrs); reflexivity.
Qed.

Lemma SFleb_not_nan (x y : spec_float) :
  SFleb x y = true -> not_nan x = true /\ not_nan y = true.
Proof.
  destruct x, y; try discriminate; split; reflexivity.
Qed.

Lemma leb_key (x y : float) :
  (x <=? y)%float = true <-> 
  not_nan (Prim2SF x) = true /\ not_nan (Prim2SF y) = true /\
  key (Prim2SF x) <= key (Prim2SF y).
Proof.
  rewrite leb_spec. split.
  - intros H. destruct (SFleb_not_nan _ _ H) as [Nx Ny].
    rewrite SFleb_key in H by (assumption || apply Prim2SF_valid).
    apply Z.leb_le in H. auto.
  - intros [Nx [Ny H]].
    rewrite SFleb_key by (assumption || apply Prim2SF_valid).
    apply Z.leb_le. exact H.
Qed.

Lemma leb_trans (x y z : float) :
  (x <=? y)%float = true -> (y <=? z)%float = true -> (x <=? z)%float = true.
Proof.
  rewrite !leb_key. intros [Nx [Ny Hxy]] [_ [Nz Hyz]].
  repeat split; try assumption. lia.
Qed.

Lemma sub_key (a s : float) :
  is_finite a = true -> is_finite s = true ->
  not_nan (Prim2SF (a - s)) = true /\
  key (Prim2SF (a - s)) = round_key (key (Prim2SF a) - key (Prim2SF s)).
Proof.
  intros Fa Fs. rewrite sub_spec.
  destruct (SFsub_key (Prim2SF a) (Prim2SF s)
              (Prim2SF_valid a) (Prim2SF_valid s)
              (Prim2SF_finite a Fa) (Prim2SF_finite s Fs)) as [Hnan Hkey].
  split; [| exact Hkey].
  destruct (SF64sub (Prim2SF a) (Prim2SF s)); try reflexivity.
  exfalso. apply Hnan. reflexivity.
Qed.

(** A clock reading minus an earlier one is not negative. *)
Lemma sub_nonneg (a s : float) :
  is_finite a = true -> is_finite s = true ->
  (s <=? a)%float = true -> (0 <=? a - s)%float = true.
Proof.
  intros Fa Fs Hle. apply leb_key in Hle as [_ [_ Hle]].
  destruct (sub_key a s Fa Fs) as [Hnan Hkey].
  apply leb_key. split; [reflexivity |]. split; [exact Hnan |].
  rewrite Hkey. change (key (Prim2SF 0)) with 0.
  apply round_key_nonneg. lia.
Qed.

(** Subtracting the same reading keeps the order. *)
Lemma sub_mono (a b s : float) :
  is_finite a = true -> is_finite b = true -> is_finite s = true ->
  (a <=? b)%float = true -> (a - s <=? b - s)%float = true.
Proof.
  intros Fa Fb Fs Hle. apply leb_key in Hle as [_ [_ Hle]].
  destruct (sub_key a s Fa Fs) as [Na Ka].
  destruct (sub_key b s Fb Fs) as [Nb Kb].
  apply leb_key. split; [exact Na |]. split; [exact Nb |].
  rewrite Ka, Kb. apply round_key_mono. lia.
Qed.

(** *** Sign, bounds and exactness of a difference *)

Lemma round_key_sign (n : Z) : (round_key n ?= 0) = (n ?= 0).
Proof.
  destruct n as [| p | p]; [reflexivity | |].
  - pose proof (round_pos_pos (Zpos p) ltac:(lia)). cbn [round_key].
    rewrite (proj2 (Z.compare_gt_iff _ _)) by lia. reflexivity.
  - pose proof (round_pos_pos (Zpos p) ltac:(lia)). cbn [round_key].
    rewrite (proj2 (Z.compare_lt_iff _ _)) by lia. reflexivity.
Qed.

Lemma compare_key (x y : float) :
  not_nan (Prim2SF x) = true -> not_nan (Prim2SF y) = true ->
  (x ?= y)%float =
  match key (Prim2SF x) ?= key (Prim2SF y) with
  | Eq => FEq | Lt => FLt | Gt => FGt
  end.
Proof.
  intros Nx Ny. rewrite compare_spec.
  rewrite SFcompare_key by (assumption || apply Prim2SF_valid).
  destruct (key (Prim2SF x) ?= key (Prim2SF y)); reflexivity.
Qed.

Lemma finite_not_nan (x : float) :
  is_finite x = true -> not_nan (Prim2SF x) = true.
Proof.
  intros H. apply Prim2SF_finite in H.
  destruct (Prim2SF x); try discriminate; reflexivity.
Qed.

Lemma sub_compare_zero (a s : float) :
  is_finite a = true -> is_finite s = true ->
  (a - s ?= 0)%float = (a ?= s)%float.
Proof.
  intros Fa Fs. destruct (sub_key a s Fa Fs) as [Hnan Hkey].
  rewrite (compare_key (a - s) 0 Hnan eq_refl).
  rewrite (compare_key a s (finite_not_nan a Fa) (finite_not_nan s Fs)).
  rewrite Hkey. change (key (Prim2SF 0)) with 0.
  rewrite round_key_sign.
  rewrite <- (Z.compare_sub (key (Prim2SF a)) (key (Prim2SF s))). reflexivity.
Qed.

Lemma SFsub_self (x : spec_float) :
  finite_or_zero x = true -> SF64sub x x = S754_zero false.
Proof.
  destruct x as [s | s | | s m e]; try discriminate; intros _.
  - destruct s; reflexivity.
  - unfold SF64sub. cbn [SFsub]. rewrite Z.sub_diag. reflexivity.
Qed.

Lemma sub_self (a : float) : is_finite a = true -> (a - a)%float = 0%float.
Proof.
  intros Fa. apply Prim2SF_inj. rewrite sub_spec.
  rewrite SFsub_self by (apply Prim2SF_finite; exact Fa). reflexivity.
Qed.

Lemma finite_of_spec (x : float) :
  finite_or_zero (Prim2SF x) = true -> is_finite x = true.
Proof.
  intros H. unfold is_finite, is_nan, is_infinity.
  rewrite !eqb_spec, abs_spec.
  change (Prim2SF infinity) with (S754_infinity false).
  destruct (Prim2SF x) as [s | s | | s m e]; try discriminate H.
  - reflexivity.
  - unfold SFeqb. cbn [SFabs SFcompare].
    rewrite Z.compare_refl.
    change (Pos.compare_cont Eq m m) with (m ?= m)%positive.
    rewrite Pos.compare_refl. destruct s; reflexivity.
Qed.

Lemma key_bound (x : spec_float) :
  valid_binary x = true -> finite_or_zero x = true ->
  - 2 ^ 2098 < key x < 2 ^ 2098.
Proof.
  destruct x as [s | s | | s m e]; try discriminate; intros Hv _.
  - cbn [key]. split; reflexivity.
  - cbn [key valid_binary] in *.
    destruct (bounded_facts m e Hv) as [_ [_ Hb]].
    destruct s; cbn [cond_Zopp]; lia.
Qed.

Lemma finite_of_key (x : spec_float) :
  not_nan x = true -> - 2 ^ 2098 < key x < 2 ^ 2098 ->
  finite_or_zero x = true.
Proof.
  pose proof infinite_key_big as Hinf.
  destruct x as [s | s | | s m e]; try discriminate; intros _ H;
    try reflexivity.
  exfalso. cbn [key] in H. destruct s; cbn [cond_Zopp] in H; lia.
Qed.

(** With the readings at or after the epoch and in order, the difference
    is finite and lies between 0 and the later reading. *)
Lemma sub_bounded (a s : float) :
  is_finite a = true -> is_finite s = true ->
  (0 <=? s)%float = true -> (s <=? a)%float = true ->
  is_finite (a - s) = true /\
  (0 <=? a - s)%float = true /\ (a - s <=? a)%float = true.
Proof.
  intros Fa Fs H0 Hsa.
  apply leb_key in H0 as [_ [_ H0]]. change (key (Prim2SF 0)) with 0 in H0.
  pose proof (sub_nonneg a s Fa Fs Hsa) as Hnn.
  apply leb_key in Hsa as [_ [Na Hsa]].
  destruct (sub_key a s Fa Fs) as [Hnan Hkey].
  assert (Hle : key (Prim2SF (a - s)) <= key (Prim2SF a)).
  { rewrite Hkey.
    apply Z.le_trans with (round_key (key (Prim2SF a))).
    - apply round_key_mono. lia.
    - rewrite round_key_canonical
        by (apply Prim2SF_valid || apply Prim2SF_finite; exact Fa).
      lia. }
  assert (Hge : 0 <= key (Prim2SF (a - s))).
  { rewrite Hkey. apply round_key_nonneg. lia. }
  pose proof (key_bound (Prim2SF a) (Prim2SF_valid a) (Prim2SF_finite a Fa)).
  split; [| split; [exact Hnn |]].
  - assert (0 < 2 ^ 2098) by reflexivity.
    apply finite_of_spec. apply finite_of_key; [exact Hnan | lia].
  - apply leb_key. auto.
Qed.

(** *** Exact differences *)

Lemma rounded_exact (n u : Z) :
  0 < n -> 0 <= u -> n mod 2 ^ u = 0 -> n < 2 ^ (53 + u) -> rounded n = n.
Proof.
  intros Hn Hu Hmod Hlt.
  assert (Hex : excess n <= u).
  { unfold excess. assert (Z.log2 n < 53 + u) by (apply Z.log2_lt_pow2; lia).
    lia. }
  pose proof (excess_nonneg n) as He.
  assert (Hp : 0 < 2 ^ excess n) by (apply Z.pow_pos_nonneg; lia).
  assert (Hm : n mod 2 ^ excess n = 0).
  { apply Z.mod_divide; [lia |].
    apply Z.divide_trans with (2 ^ u).
    - exists (2 ^ (u - excess n)). rewrite <- Z.pow_add_r by lia.
      f_equal. lia.
    - apply Z.mod_divide; [| exact Hmod].
      assert (0 < 2 ^ u) by (apply Z.pow_pos_nonneg; lia). lia. }
  unfold rounded. rewrite rne_shift_exact by assumption.
  pose proof (Z.div_mod n (2 ^ excess n) ltac:(lia)). lia.
Qed.

Lemma canonical_exponent_le (m1 m2 : positive) (e1 e2 : Z) :
  bounded prec emax m1 e1 = true -> bounded prec emax m2 e2 = true ->
  Zpos m1 * 2 ^ (e1 + 1074) <= Zpos m2 * 2 ^ (e2 + 1074) -> e1 <= e2.
Proof.
  intros H1 H2 Hle. destruct (Z.le_gt_cases e1 e2) as [L | G]; [exact L |].
  pose proof (canonical_lt m2 m1 e2 e1 H2 H1 ltac:(lia)). lia.
Qed.

(** Sterbenz: when [s <= a <= 2 s], the difference [a - s] is computed
    without rounding. *)
Lemma SFsub_exact (x y : spec_float) :
  valid_binary x = true -> valid_binary y = true ->
  finite_or_zero x = true -> finite_or_zero y = true ->
  0 < key y -> key y <= key x <= 2 * key y ->
  key (SF64sub x y) = key x - key y.
Proof.
  intros Hx Hy Fx Fy Hpos Hrange.
  destruct (SFsub_key x y Hx Hy Fx Fy) as [_ Hkey]. rewrite Hkey.
  destruct (Z.eq_dec (key x) (key y)) as [E | NE].
  { rewrite E, Z.sub_diag. reflexivity. }
  destruct x as [sx | sx | | sx mx ex]; try discriminate;
    destruct y as [sy | sy | | sy my ey]; try discriminate;
    cbn [key] in *; try lia.
  cbn [valid_binary] in Hx, Hy.
  destruct (bounded_facts mx ex Hx) as [Hex [Hcx Hbx]].
  destruct (bounded_facts my ey Hy) as [Hey [Hcy Hby]].
  destruct sy; cbn [cond_Zopp] in *; [lia |].
  destruct sx; cbn [cond_Zopp] in *; [lia |].
  assert (Hee : ey <= ex)
    by (apply (canonical_exponent_le my mx ey ex Hy Hx); lia).
  set (N := Zpos mx * 2 ^ (ex + 1074) - Zpos my * 2 ^ (ey + 1074)) in *.
  assert (HN : 0 < N) by (unfold N; lia).
  rewrite round_key_pos by exact HN.
  assert (Hmy : Zpos my < 2 ^ 53) by (apply Z.log2_lt_pow2; lia).
  assert (Hu : 0 < 2 ^ (ey + 1074)) by (apply Z.pow_pos_nonneg; lia).
  assert (Hr : rounded N = N).
  { apply (rounded_exact N (ey + 1074)); [exact HN | lia | |].
    - unfold N. replace (ex + 1074) with ((ex - ey) + (ey + 1074)) by lia.
      rewrite Z.pow_add_r by lia.
      replace (Zpos mx * (2 ^ (ex - ey) * 2 ^ (ey + 1074)) -
               Zpos my * 2 ^ (ey + 1074))
        with ((Zpos mx * 2 ^ (ex - ey) - Zpos my) * 2 ^ (ey + 1074)) by ring.
      apply Z.mod_mul. lia.
    - rewrite Z.pow_add_r by lia. nia. }
  unfold round_pos. rewrite Hr.
  destruct (Z.leb_spec (2 ^ 2098) N); [lia | reflexivity].
Qed.

Lemma sub_exact (a s : float) :
  is_finite a = true -> is_finite s = true ->
  0 < key (Prim2SF s) ->
  key (Prim2SF s) <= key (Prim2SF a) <= 2 * key (Prim2SF s) ->
  key (Prim2SF (a - s)) = key (Prim2SF a) - key (Prim2SF s).
Proof.
  intros Fa Fs Hpos Hrange. rewrite sub_spec.
  apply SFsub_exact; try apply Prim2SF_valid; try apply Prim2SF_finite;
    assumption.
Qed.

End Binary64Facts.

(** ** Printing and reading decimal fields *)

Module Format.

Lemma append_assoc (a b c : string) : (a ++ b) ++ c = a ++ (b ++ c).
Proof. induction a as [| x a IH]; simpl; [reflexivity | rewrite IH; reflexivity]. Qed.

Lemma append_nil_r (a : string) : a ++ "" = a.
Proof. induction a as [| x a IH]; simpl; [reflexivity | rewrite IH; reflexivity]. Qed.

Lemma length_append (a b : string) :
  String.length (a ++ b) = (String.length a + String.length b)%nat.
Proof. induction a as [| x a IH]; simpl; [reflexivity | rewrite IH; reflexivity]. Qed.

Lemma digit_value_char (d : Z) :
  0 <= d <= 9 -> Py.digit_value (Py.digit_char d) = Some d.
Proof.
  intros H.
  assert (Hc : d = 0 \/ d = 1 \/ d = 2 \/ d = 3 \/ d = 4 \/
               d = 5 \/ d = 6 \/ d = 7 \/ d = 8 \/ d = 9) by lia.
  repeat (destruct Hc as [-> | Hc]; [reflexivity |]). subst d; reflexivity.
Qed.

Lemma take_digits_zeros (z j : nat) (s : string) :
  Py.take_digits (z + j) 0 (Py.zeros z ++ s) = Py.take_digits j 0 s.
Proof.
  induction z as [| z IH]; [reflexivity |].
  cbn [Nat.add Py.zeros append Py.take_digits].
  change (Py.digit_value "0") with (Some 0). exact IH.
Qed.

(** The digits produced by [digits_fuel] are read back by [take_digits];
    [k] is their number. *)
Lemma take_digits_fuel (fuel : nat) :
  forall (n : Z) (s : string),
  0 <= n < 10 ^ Z.of_nat fuel -> (1 <= fuel)%nat ->
  exists k : nat,
    (1 <= k)%nat /\
    String.length (Py.digits_fuel fuel n s) = (k + String.length s)%nat /\
    (k = 1%nat \/ 10 ^ (Z.of_nat k - 1) <= n) /\
    forall (j : nat) (a : Z) (rest : string),
      Py.take_digits (k + j) a (Py.digits_fuel fuel n s ++ rest) =
      Py.take_digits j (a * 10 ^ Z.of_nat k + n) (s ++ rest).
Proof.
  induction fuel as [| fuel IH]; intros n s Hn Hf; [lia |].
  cbn [Py.digits_fuel].
  assert (Hmod : 0 <= n mod 10 <= 9) by (pose proof (Z.mod_pos_bound n 10); lia).
  destruct (n / 10 =? 0) eqn:Hq.
  - apply Z.eqb_eq in Hq.
    assert (Hsmall : n mod 10 = n).
    { pose proof (Z.div_mod n 10). lia. }
    exists 1%nat. repeat split; [lia | left; reflexivity |].
    intros j a rest. cbn [Nat.add append Py.take_digits].
    rewrite digit_value_char by assumption.
    rewrite Hsmall. f_equal. change (Z.of_nat 1) with 1. lia.
  - apply Z.eqb_neq in Hq.
    assert (Hq' : 1 <= n / 10) by (pose proof (Z.div_pos n 10); lia).
    assert (Hfuel : (1 <= fuel)%nat).
    { destruct fuel; [| lia]. change (10 ^ Z.of_nat 1) with 10 in Hn.
      assert (n / 10 = 0) by (apply Z.div_small; lia). lia. }
    assert (Hdiv : 0 <= n / 10 < 10 ^ Z.of_nat fuel).
    { split; [lia |]. apply Z.div_lt_upper_bound; [lia |].
      replace (Z.of_nat (S fuel)) with (Z.of_nat fuel + 1) in Hn by lia.
      rewrite Z.pow_add_r in Hn by lia. lia. }
    destruct (IH (n / 10) (String (Py.digit_char (n mod 10)) s) Hdiv Hfuel)
      as [k [Hk [Hlen [Hmin Htake]]]].
    exists (S k). split; [lia |]. split; [rewrite Hlen; simpl; lia |]. split.
    + right. replace (Z.of_nat (S k) - 1) with (Z.of_nat k) by lia.
      destruct Hmin as [-> | Hmin].
      * change (10 ^ Z.of_nat 1) with 10. pose proof (Z.div_mod n 10). lia.
      * replace (Z.of_nat k) with ((Z.of_nat k - 1) + 1) by lia.
        rewrite Z.pow_add_r by lia. pose proof (Z.div_mod n 10). lia.
    + intros j a rest.
      replace (S k + j)%nat with (k + S j)%nat by lia.
      rewrite Htake. cbn [append Py.take_digits].
      rewrite digit_value_char by assumption. f_equal.
      replace (Z.of_nat (S k)) with (Z.of_nat k + 1) by lia.
      rewrite Z.pow_add_r by lia. pose proof (Z.div_mod n 10). lia.
Qed.

Lemma decimal_fuel (n : Z) :
  0 <= n -> n < 10 ^ Z.of_nat (S (Z.to_nat (Z.log2 n))).
Proof.
  intros Hn. destruct (Z.eq_dec n 0) as [-> | Hnz]; [reflexivity |].
  pose proof (Z.log2_nonneg n) as Hl.
  replace (Z.of_nat (S (Z.to_nat (Z.log2 n)))) with (Z.log2 n + 1) by lia.
  assert (H2 : n < 2 ^ (Z.log2 n + 1)).
  { replace (Z.log2 n + 1) with (Z.succ (Z.log2 n)) by lia.
    apply Z.log2_spec. lia. }
  assert (H10 : 2 ^ (Z.log2 n + 1) <= 10 ^ (Z.log2 n + 1)).
  { apply Z.pow_le_mono_l. lia. }
  lia.
Qed.

(** A field printed with [%0wd] is read back by [take_digits w]. *)
Lemma take_digits_format_d (w : nat) (n : Z) (rest : string) :
  (1 <= w)%nat -> 0 <= n < 10 ^ Z.of_nat w ->
  Py.take_digits w 0 (Py.format_d w n ++ rest) = Some (n, rest).
Proof.
  intros Hw Hn. unfold Py.format_d.
  replace (n <? 0) with false by (symmetry; apply Z.ltb_ge; lia).
  cbv zeta. unfold Py.decimal.
  destruct (take_digits_fuel (S (Z.to_nat (Z.log2 n))) n ""
              (conj (proj1 Hn) (decimal_fuel n (proj1 Hn))) ltac:(lia))
    as [k [Hk [Hlen [Hmin Htake]]]].
  rewrite Hlen. cbn [String.length]. rewrite Nat.add_0_r.
  assert (Hkw : (k <= w)%nat).
  { destruct Hmin as [-> | Hmin]; [assumption |].
    destruct (Nat.le_gt_cases k w) as [Hle | Hgt]; [assumption | exfalso].
    assert (10 ^ Z.of_nat w <= 10 ^ (Z.of_nat k - 1))
      by (apply Z.pow_le_mono_r; lia).
    lia. }
  rewrite append_assoc.
  replace w with ((w - k) + k)%nat at 1 by lia.
  rewrite take_digits_zeros.
  replace k with (k + 0)%nat at 1 by lia.
  rewrite Htake. reflexivity.
Qed.

Lemma days_in_month_bound (y m : Z) : Py.days_in_month y m <= 31.
Proof.
  unfold Py.days_in_month.
  destruct (m =? 2); [destruct (Py.is_leap y); lia |].
  destruct ((m =? 4) || (m =? 6) || (m =? 9) || (m =? 11)); lia.
Qed.

Lemma datetime_valid_ranges (d : Py.datetime) :
  Py.datetime_valid d = true ->
  0 <= Py.year d < 10 ^ Z.of_nat 4 /\
  0 <= Py.month d < 10 ^ Z.of_nat 2 /\
  0 <= Py.day d < 10 ^ Z.of_nat 2 /\
  0 <= Py.hour d < 10 ^ Z.of_nat 2 /\
  0 <= Py.minute d < 10 ^ Z.of_nat 2 /\
  0 <= Py.second d < 10 ^ Z.of_nat 2 /\
  0 <= Py.microsecond d < 10 ^ Z.of_nat 6.
Proof.
  unfold Py.datetime_valid. intros H.
  repeat (apply andb_prop in H; destruct H as [H ?]).
  repeat match goal with
  | Hb : (_ <=? _) = true |- _ => apply Z.leb_le in Hb
  end.
  pose proof (days_in_month_bound (Py.year d) (Py.month d)).
  change (10 ^ Z.of_nat 4) with 10000.
  change (10 ^ Z.of_nat 2) with 100.
  change (10 ^ Z.of_nat 6) with 1000000.
  lia.
Qed.

(** Reading what [isoformat] printed gives the datetime back. *)
Lemma parse_isoformat (d : Py.datetime) :
  Py.datetime_valid d = true ->
  Py.parse_iso8601 (Py.isoformat d) = Some d.
Proof.
  intros Hv.
  destruct (datetime_valid_ranges d Hv)
    as [Hy [Hmo [Hd [Hh [Hmi [Hs Hus]]]]]].
  unfold Py.parse_iso8601, Py.isoformat.
  rewrite take_digits_format_d by (assumption || lia).
  cbn [Py.andThen Py.expect append Ascii.eqb Bool.eqb].
  rewrite take_digits_format_d by (assumption || lia).
  cbn [Py.andThen Py.expect append Ascii.eqb Bool.eqb].
  rewrite take_digits_format_d by (assumption || lia).
  cbn [Py.andThen Py.expect append Ascii.eqb Bool.eqb].
  rewrite take_digits_format_d by (assumption || lia).
  cbn [Py.andThen Py.expect append Ascii.eqb Bool.eqb].
  rewrite take_digits_format_d by (assumption || lia).
  cbn [Py.andThen Py.expect append Ascii.eqb Bool.eqb].
  rewrite take_digits_format_d by (assumption || lia).
  cbn [Py.andThen].
  match goal with
  | |- context [Py.parse_fraction ?x] =>
      assert (Hfrac : Py.parse_fraction x = Some (Py.microsecond d))
  end.
  { destruct (Py.microsecond d =? 0) eqn:Hz.
    - apply Z.eqb_eq in Hz. rewrite Hz. reflexivity.
    - cbn [Py.parse_fraction Ascii.eqb Bool.eqb].
      rewrite <- (append_nil_r (Py.format_d 6 (Py.microsecond d))).
      rewrite take_digits_format_d by (assumption || lia). reflexivity. }
  rewrite Hfrac. cbn [Py.andThen].
  destruct d as [y mo dd h mi sec us]; cbn [Py.year Py.month Py.day Py.hour
    Py.minute Py.second Py.microsecond] in *.
  rewrite Hv. reflexivity.
Qed.

(** *** Length and text order of timestamps *)

Lemma length_zeros (k : nat) : String.length (Py.zeros k) = k.
Proof. induction k as [| k IH]; simpl; congruence. Qed.

Lemma format_d_length (w : nat) (n : Z) :
  (1 <= w)%nat -> 0 <= n < 10 ^ Z.of_nat w ->
  String.length (Py.format_d w n) = w.
Proof.
  intros Hw Hn. unfold Py.format_d.
  replace (n <? 0) with false by (symmetry; apply Z.ltb_ge; lia).
  cbv zeta. unfold Py.decimal.
  destruct (take_digits_fuel (S (Z.to_nat (Z.log2 n))) n ""
              (conj (proj1 Hn) (decimal_fuel n (proj1 Hn))) ltac:(lia))
    as [k [Hk [Hlen [Hmin _]]]].
  rewrite length_append, length_zeros, Hlen. cbn [String.length].
  assert (Hkw : (k <= w)%nat).
  { destruct Hmin as [-> | Hmin]; [assumption |].
    destruct (Nat.le_gt_cases k w) as [Hle | Hgt]; [assumption | exfalso].
    assert (10 ^ Z.of_nat w <= 10 ^ (Z.of_nat k - 1))
      by (apply Z.pow_le_mono_r; lia).
    lia. }
  lia.
Qed.

Lemma isoformat_length (d : Py.datetime) :
  Py.datetime_valid d = true ->
  String.length (Py.isoformat d) =
  if Py.microsecond d =? 0 then 19%nat else 26%nat.
Proof.
  intros Hv.
  destruct (datetime_valid_ranges d Hv)
    as [Hy [Hmo [Hd [Hh [Hmi [Hs Hus]]]]]].
  unfold Py.isoformat.
  repeat (rewrite length_append; cbn [String.length]).
  rewrite !format_d_length by (assumption || lia).
  destruct (Py.microsecond d =? 0); [reflexivity |].
  rewrite length_append. cbn [String.length].
  rewrite format_d_length by (assumption || lia). reflexivity.
Qed.

(** *** The order of printed fields *)

Lemma digit_value_range (c : ascii) (d : Z) :
  Py.digit_value c = Some d ->
  0 <= d <= 9 /\ Z.of_N (N_of_ascii c) = d + 48.
Proof.
  unfold Py.digit_value, nat_of_ascii. cbv zeta.
  rewrite N_nat_Z.
  destruct (Z.leb_spec 48 (Z.of_N (N_of_ascii c)));
    destruct (Z.leb_spec (Z.of_N (N_of_ascii c)) 57); cbn [andb];
    try discriminate.
  intros [= <-]. lia.
Qed.

Lemma digit_compare (c1 c2 : ascii) (d1 d2 : Z) :
  Py.digit_value c1 = Some d1 -> Py.digit_value c2 = Some d2 ->
  Ascii.compare c1 c2 = (d1 ?= d2).
Proof.
  intros H1 H2.
  destruct (digit_value_range c1 d1 H1) as [_ E1].
  destruct (digit_value_range c2 d2 H2) as [_ E2].
  unfold Ascii.compare. rewrite <- N2Z.inj_compare, E1, E2.
  rewrite (Z.compare_sub (d1 + 48) (d2 + 48)), (Z.compare_sub d1 d2).
  f_equal. lia.
Qed.

Lemma take_digits_bounds (w : nat) :
  forall (a : Z) (s : string) (n : Z) (r : string),
  Py.take_digits w a s = Some (n, r) ->
  a * 10 ^ Z.of_nat w <= n < (a + 1) * 10 ^ Z.of_nat w.
Proof.
  induction w as [| w IH]; intros a s n r H.
  - cbn [Py.take_digits] in H. injection H as <- _.
    change (10 ^ Z.of_nat 0) with 1. lia.
  - cbn [Py.take_digits] in H. destruct s as [| c s']; [discriminate |].
    destruct (Py.digit_value c) as [d |] eqn:Hd; [| discriminate].
    destruct (digit_value_range c d Hd) as [Hr _].
    apply IH in H.
    replace (Z.of_nat (S w)) with (1 + Z.of_nat w) by lia.
    rewrite Z.pow_add_r by lia. change (10 ^ 1) with 10.
    assert (0 < 10 ^ Z.of_nat w) by (apply Z.pow_pos_nonneg; lia).
    nia.
Qed.

(** Two texts that start with [w] digits compare as the numbers those
    digits denote, then as what follows. *)
Lemma compare_take_digits (w : nat) :
  forall (a : Z) (s1 s2 : string) (n1 n2 : Z) (r1 r2 : string),
  Py.take_digits w a s1 = Some (n1, r1) ->
  Py.take_digits w a s2 = Some (n2, r2) ->
  String.compare s1 s2 =
  match n1 ?= n2 with
  | Eq => String.compare r1 r2
  | c => c
  end.
Proof.
  induction w as [| w IH]; intros a s1 s2 n1 n2 r1 r2 H1 H2.
  - cbn [Py.take_digits] in H1, H2.
    injection H1 as <- <-. injection H2 as <- <-.
    rewrite Z.compare_refl. reflexivity.
  - cbn [Py.take_digits] in H1, H2.
    destruct s1 as [| c1 s1']; [discriminate |].
    destruct s2 as [| c2 s2']; [discriminate |].
    destruct (Py.digit_value c1) as [d1 |] eqn:Hd1; [| discriminate].
    destruct (Py.digit_value c2) as [d2 |] eqn:Hd2; [| discriminate].
    cbn [String.compare]. rewrite (digit_compare c1 c2 d1 d2 Hd1 Hd2).
    pose proof (take_digits_bounds w _ _ _ _ H1) as B1.
    pose proof (take_digits_bounds w _ _ _ _ H2) as B2.
    assert (Hp : 0 < 10 ^ Z.of_nat w) by (apply Z.pow_pos_nonneg; lia).
    destruct (Z.compare_spec d1 d2) as [E | L | G].
    + subst d2. exact (IH _ _ _ _ _ _ _ H1 H2).
    + rewrite (proj2 (Z.compare_lt_iff n1 n2)) by nia. reflexivity.
    + rewrite (proj2 (Z.compare_gt_iff n1 n2)) by nia. reflexivity.
Qed.

Lemma compare_format_d (w : nat) (x y : Z) (r1 r2 : string) :
  (1 <= w)%nat -> 0 <= x < 10 ^ Z.of_nat w -> 0 <= y < 10 ^ Z.of_nat w ->
  String.compare (Py.format_d w x ++ r1) (Py.format_d w y ++ r2) =
  match x ?= y with
  | Eq => String.compare r1 r2
  | c => c
  end.
Proof.
  intros Hw Hx Hy.
  apply (compare_take_digits w 0); apply take_digits_format_d; assumption.
Qed.

Lemma compare_cons_same (c : ascii) (s1 s2 : string) :
  String.compare (String c s1) (String c s2) = String.compare s1 s2.
Proof.
  cbn [String.compare]. 
  replace (Ascii.compare c c) with Eq; [reflexivity |].
  symmetry. unfold Ascii.compare. apply N.compare_refl.
Qed.

(** The text order of ISO timestamps is the order of the datetimes. *)
Lemma compare_isoformat (a b : Py.datetime) :
  Py.datetime_valid a = true -> Py.datetime_valid b = true ->
  String.compare (Py.isoformat a) (Py.isoformat b) = Py.datetime_compare a b.
Proof.
  intros Ha Hb.
  destruct (datetime_valid_ranges a Ha) as [Ay [Amo [Ad [Ah [Ami [As Aus]]]]]].
  destruct (datetime_valid_ranges b Hb) as [By [Bmo [Bd [Bh [Bmi [Bs Bus]]]]]].
  unfold Py.isoformat, Py.datetime_compare, Py.datetime_fields.
  cbn [Py.lex_compare].
  repeat (rewrite compare_format_d by (assumption || lia);
          cbn [append]; rewrite ?compare_cons_same).
  destruct (Py.year a ?= Py.year b); try reflexivity.
  destruct (Py.month a ?= Py.month b); try reflexivity.
  destruct (Py.day a ?= Py.day b); try reflexivity.
  destruct (Py.hour a ?= Py.hour b); try reflexivity.
  destruct (Py.minute a ?= Py.minute b); try reflexivity.
  destruct (Py.second a ?= Py.second b); try reflexivity.
  destruct (Z.eqb_spec (Py.microsecond a) 0) as [Ea | Na];
    destruct (Z.eqb_spec (Py.microsecond b) 0) as [Eb | Nb].
  - rewrite Ea, Eb. reflexivity.
  - rewrite Ea. cbn [append String.compare].
    rewrite (proj2 (Z.compare_lt_iff 0 (Py.microsecond b))) by lia.
    reflexivity.
  - rewrite Eb. cbn [append String.compare].
    rewrite (proj2 (Z.compare_gt_iff (Py.microsecond a) 0)) by lia.
    reflexivity.
  - cbn [append]. rewrite compare_cons_same.
    rewrite <- (append_nil_r (Py.format_d 6 (Py.microsecond a))).
    rewrite <- (append_nil_r (Py.format_d 6 (Py.microsecond b))).
    rewrite compare_format_d by (assumption || lia).
    destruct (Py.microsecond a ?= Py.microsecond b); reflexivity.
Qed.

End Format.

(** ** What each handler computes *)

Section HandlerFacts.
Variable lib : Pydantic.conversions.

Lemma health_check_eq (p : Process) (c : Clock) :
  health_check lib p c =
  (Some (HealthResponse.mk "healthy" "1.0.0"
           (time_time c - startup_time p)%float), p).
Proof. reflexivity. Qed.

Lemma root_eq (p : Process) (c : Clock) :
  root lib p c =
  (Some (MessageResponse.mk "Welcome to FastAPI with Alpine Docker! " "1.0.0"
           (Py.isoformat (utcnow c))), p).
Proof. reflexivity. Qed.

Lemma handler_state (e : Endpoint) (p : Process) (c : Clock) :
  snd (handler lib e p c) = p.
Proof. destruct e; reflexivity. Qed.

Lemma serve_state (reqs : list (Endpoint * Clock)) (p : Process) :
  snd (serve lib p reqs) = p.
Proof.
  induction reqs as [| [e c] rest IH]; intros; simpl; [reflexivity |].
  pose proof (handler_state e p c) as Hh.
  destruct (handler lib e p c) as [r p']; simpl in Hh; subst p'.
  specialize IH. destruct (serve lib p rest) as [rs p'']; simpl in *.
  assumption.
Qed.

Lemma serve_cons (p : Process) (e : Endpoint) (c : Clock)
    (rest : list (Endpoint * Clock)) :
  fst (serve lib p ((e, c) :: rest)) =
  fst (handler lib e p c) :: fst (serve lib p rest).
Proof.
  simpl. pose proof (handler_state e p c) as Hh.
  destruct (handler lib e p c) as [r p']; simpl in Hh; subst p'.
  destruct (serve lib p rest) as [rs p'']; reflexivity.
Qed.

(** The [k]-th response of a run is the handler of the [k]-th request run
    in the state left by the module load. *)
Lemma serve_nth (reqs : list (Endpoint * Clock)) (p : Process) (k : nat)
    (e : Endpoint) (c : Clock) :
  nth_error reqs k = Some (e, c) ->
  nth_error (fst (serve lib p reqs)) k = Some (fst (handler lib e p c)).
Proof.
  revert k; induction reqs as [| [e' c'] rest IH]; intros k Hk.
  - destruct k; discriminate.
  - rewrite serve_cons. destruct k as [| k]; simpl in *.
    + injection Hk as -> ->. reflexivity.
    + apply IH; assumption.
Qed.

Lemma serve_length (reqs : list (Endpoint * Clock)) (p : Process) :
  List.length (fst (serve lib p reqs)) = List.length reqs.
Proof.
  induction reqs as [| [e c] rest IH]; [reflexivity |].
  rewrite serve_cons. simpl. congruence.
Qed.

End HandlerFacts.

(** ** The response models *)

Lemma isinstance_TStr (v : Py.value) :
  Py.isinstance Py.TStr v = true -> exists s, v = Py.VStr s.
Proof. destruct v; simpl; try discriminate. intros _. eexists; reflexivity. Qed.

Lemma isinstance_TFloat (v : Py.value) :
  Py.isinstance Py.TFloat v = true -> exists f, v = Py.VFloat f.
Proof. destruct v; simpl; try discriminate. intros _. eexists; reflexivity. Qed.

Lemma str_keys_of_typed (d : list (Py.value * Py.value)) :
  forallb (fun kv => Py.isinstance Py.TStr (fst kv) &&
                     Py.isinstance Py.TAny (snd kv)) d = true ->
  exists d', Pydantic.str_keys d = Some d' /\
             map (fun kv => (Py.VStr (fst kv), snd kv)) d' = d.
Proof.
  induction d as [| [k v] rest IH]; simpl; intros H.
  - exists []. split; reflexivity.
  - apply andb_prop in H as [Hkv Hrest].
    apply andb_prop in Hkv as [Hk _].
    destruct (isinstance_TStr k Hk) as [s ->].
    destruct (IH Hrest) as [d' [-> Hmap]].
    exists ((s, v) :: d'). split; [reflexivity |].
    simpl. rewrite Hmap. reflexivity.
Qed.

Lemma isinstance_TDict (v : Py.value) :
  Py.isinstance (Py.TDict Py.TStr Py.TAny) v = true ->
  exists d', v = Py.VDict (map (fun kv => (Py.VStr (fst kv), snd kv)) d') /\
             Pydantic.str_keys (map (fun kv => (Py.VStr (fst kv), snd kv)) d')
             = Some d'.
Proof.
  destruct v; try discriminate. cbn [Py.isinstance]. intros H.
  destruct (str_keys_of_typed d H) as [d' [Hk Hm]].
  exists d'. rewrite Hm. split; [reflexivity | exact Hk].
Qed.


(** ** The clock-dependent fields of a run *)

Lemma serve_timestamps (lib : Pydantic.conversions)
    (reqs : list (Endpoint * Clock)) (p : Process) :
  timestamps (fst (serve lib p reqs)) =
  map (fun c => Py.isoformat (utcnow c)) (readings_of GET_root reqs).
Proof.
  induction reqs as [| [e c] rest IH]; [reflexivity |].
  rewrite serve_cons. unfold timestamps, readings_of in *.
  cbn [flat_map filter fst]. rewrite IH.
  destruct e; reflexivity.
Qed.

Lemma serve_uptimes (lib : Pydantic.conversions)
    (reqs : list (Endpoint * Clock)) (p : Process) :
  uptimes (fst (serve lib p reqs)) =
  map (fun c => (time_time c - startup_time p)%float)
      (readings_of GET_health reqs).
Proof.
  induction reqs as [| [e c] rest IH]; [reflexivity |].
  rewrite serve_cons. unfold uptimes, readings_of in *.
  cbn [flat_map filter fst]. rewrite IH.
  destruct e; reflexivity.
Qed.

Lemma nondecreasing_map {A B : Type} (f : A -> B)
    (leA : A -> A -> bool) (leB : B -> B -> bool) (l : list A) :
  (forall a b, In a l -> In b l -> leA a b = true -> leB (f a) (f b) = true) ->
  Py.nondecreasing leA l = true ->
  Py.nondecreasing leB (map f l) = true.
Proof.
  induction l as [| a [| b rest] IH]; intros Hf H; try reflexivity.
  cbn [Py.nondecreasing map] in *.
  apply andb_prop in H as [Hab Hrest].
  apply andb_true_intro. split.
  - apply Hf; simpl; auto.
  - apply IH; [| exact Hrest].
    intros x y Hx Hy. apply Hf; simpl; auto.
Qed.

Lemma nondecreasing_from_head (s : float) (ts : list float) :
  Py.nondecreasing PrimFloat.leb (s :: ts) = true ->
  Forall (fun t => (s <=? t)%float = true) ts /\
  Py.nondecreasing PrimFloat.leb ts = true.
Proof.
  revert s. induction ts as [| t rest IH]; intros s H.
  - split; [constructor | reflexivity].
  - cbn [Py.nondecreasing] in H. apply andb_prop in H as [Hst Hrest].
    destruct (IH t Hrest) as [Hall Hnd]. split; [| exact Hrest].
    constructor; [exact Hst |].
    apply Forall_forall. intros u Hu.
    apply (Binary64Facts.leb_trans s t u Hst).
    apply (proj1 (Forall_forall _ _) Hall u Hu).
Qed.

(** ** The endpoints *)

(** C1: every invocation of the [GET /health] handler, in any process state
    and at any clock reading, returns a [HealthResponse] whose [status] is
    the string "healthy" and whose [version] is the string "1.0.0". *)
Theorem health_status_and_version_are_fixed :
  forall (lib : Pydantic.conversions) (p : Process) (c : Clock),
  exists h : HealthResponse.t,
    fst (health_check lib p c) = Some h /\
    HealthResponse.status h = "healthy" /\
    HealthResponse.version h = "1.0.0".
Proof.
  intros lib p c. rewrite health_check_eq. simpl.
  eexists; split; [reflexivity |]. split; reflexivity.
Qed.

(** C3: in a process whose module was loaded at clock [c0], whatever
    requests were served before, a [GET /health] call made at clock [c]
    returns as [uptime] the float difference of the reading [time.time()]
    at [c] and the reading taken at [c0]; that startup reading is the one
    the process still holds. *)
Theorem uptime_is_now_minus_startup :
  forall (lib : Pydantic.conversions) (c0 : Clock)
         (reqs : list (Endpoint * Clock)) (k : nat) (c : Clock),
  nth_error reqs k = Some (GET_health, c) ->
  exists h : HealthResponse.t,
    nth_error (fst (run lib c0 reqs)) k = Some (Some (RHealth h)) /\
    HealthResponse.uptime h = (time_time c - time_time c0)%float /\
    startup_time (snd (run lib c0 reqs)) = time_time c0.
Proof.
  intros lib c0 reqs k c Hk. unfold run.
  rewrite (serve_nth lib reqs (load_module c0) k GET_health c Hk).
  rewrite serve_state. simpl.
  eexists; split; [reflexivity |]. split; reflexivity.
Qed.

Lemma uptime_is_now_minus_startup_witness :
  exists h : HealthResponse.t,
    nth_error
      (fst (run Pydantic.strict
              {| time_time := 100%float;
                 utcnow := Py.mk_datetime 2024 1 1 0 0 0 0 |}
              [(GET_root,
                {| time_time := 101%float;
                   utcnow := Py.mk_datetime 2024 1 1 0 0 1 0 |});
               (GET_health,
                {| time_time := 102.5%float;
                   utcnow := Py.mk_datetime 2024 1 1 0 0 2 500000 |})]))
      1 = Some (Some (RHealth h)) /\
    HealthResponse.uptime h = (102.5 - 100)%float /\
    startup_time
      (snd (run Pydantic.strict
              {| time_time := 100%float;
                 utcnow := Py.mk_datetime 2024 1 1 0 0 0 0 |}
              [(GET_root,
                {| time_time := 101%float;
                   utcnow := Py.mk_datetime 2024 1 1 0 0 1 0 |});
               (GET_health,
                {| time_time := 102.5%float;
                   utcnow := Py.mk_datetime 2024 1 1 0 0 2 500000 |})]))
    = 100%float.
Proof.
  apply (uptime_is_now_minus_startup Pydantic.strict
           {| time_time := 100%float;
              utcnow := Py.mk_datetime 2024 1 1 0 0 0 0 |}
           [(GET_root,
             {| time_time := 101%float;
                utcnow := Py.mk_datetime 2024 1 1 0 0 1 0 |});
            (GET_health,
             {| time_time := 102.5%float;
                utcnow := Py.mk_datetime 2024 1 1 0 0 2 500000 |})]
           1
           {| time_time := 102.5%float;
              utcnow := Py.mk_datetime 2024 1 1 0 0 2 500000 |}).
  reflexivity.
Defined.

(** C4: every invocation of the [GET /api/info] handler returns the same
    object: its keys are, in order, name, version, framework,
    python_version, server, base_image, docs and redoc, and each key is
    bound to the string the specification gives for it (and no other key is
    bound). *)
Theorem info_is_the_constant_mapping :
  forall (p : Process) (c : Clock),
  exists d : list (string * Py.value),
    fst (info p c) = Some d /\
    map fst d =
      ["name"; "version"; "framework"; "python_version"; "server";
       "base_image"; "docs"; "redoc"] /\
    (forall key : string,
        Py.kwarg key d = option_map Py.VStr (info_spec key)) /\
    (forall (p' : Process) (c' : Clock),
        fst (info p' c') = Some d).
Proof.
  intros p c. eexists. split; [reflexivity |].
  split; [reflexivity |]. split; [| reflexivity].
  intros key. unfold info_spec. cbn [Py.kwarg].
  repeat match goal with
  | |- context [String.eqb ?a key] =>
      rewrite (String.eqb_sym a key);
      destruct (String.eqb key a); [reflexivity |]
  end.
  reflexivity.
Qed.

(** C5: every invocation of the [GET /] handler returns a [MessageResponse]
    whose [message] is "Welcome to FastAPI with Alpine Docker! " (with its
    trailing space), whose [version] is "1.0.0", and whose [timestamp] is
    the ISO format of the [datetime.utcnow()] reading of that very call; so
    the timestamps of a run are, call by call, the ISO formats of the
    readings taken at the [GET /] calls. *)
Theorem root_message_version_and_fresh_timestamp :
  forall (lib : Pydantic.conversions) (p : Process) (c : Clock),
  (exists m : MessageResponse.t,
      fst (root lib p c) = Some m /\
      MessageResponse.message m = "Welcome to FastAPI with Alpine Docker! " /\
      MessageResponse.version m = "1.0.0" /\
      MessageResponse.timestamp m = Py.isoformat (utcnow c)) /\
  (forall (c0 : Clock) (reqs : list (Endpoint * Clock)),
      timestamps (fst (run lib c0 reqs)) =
      map (fun c' => Py.isoformat (utcnow c')) (readings_of GET_root reqs)).
Proof.
  intros lib p c. split.
  - rewrite root_eq. simpl.
    eexists; split; [reflexivity |]. repeat split; reflexivity.
  - intros c0 reqs. apply serve_timestamps.
Qed.

(** C7: for each of the three endpoints, [n] requests to it (at any clock
    readings, in a process loaded at any reading) produce [n] responses,
    none of them an error, that all have the same fixed part: they agree on
    every field except the [timestamp] of a [MessageResponse] and the
    [uptime] of a [HealthResponse]. *)
Theorem repeated_requests_agree_outside_clock_fields :
  forall (lib : Pydantic.conversions) (e : Endpoint) (c0 : Clock)
         (clocks : list Clock),
  List.length (fst (run lib c0 (repeated e clocks))) = List.length clocks /\
  exists shape : Returned,
    Forall (fun r => exists v, r = Some v /\ fixed_part v = shape)
           (fst (run lib c0 (repeated e clocks))).
Proof.
  intros lib e c0 clocks. unfold run. split.
  - rewrite serve_length. unfold repeated. apply length_map.
  - exists (match fst (handler lib e (load_module c0) c0) with
            | Some v => fixed_part v
            | None => RDict []
            end).
    induction clocks as [| c rest IH]; [constructor |].
    unfold repeated in *. cbn [map]. rewrite serve_cons.
    constructor; [| exact IH].
    destruct e; eexists; (split; [reflexivity | reflexivity]).
Qed.

(** C8: the process state is the startup timestamp alone; the module load
    sets it to the reading taken then, and after any sequence of requests
    to the three endpoints the process state is exactly the one the module
    load produced, each single handler invocation leaving it as it found
    it. *)
Theorem startup_time_is_never_mutated :
  forall (lib : Pydantic.conversions) (c0 : Clock)
         (reqs : list (Endpoint * Clock)),
  startup_time (load_module c0) = time_time c0 /\
  snd (run lib c0 reqs) = load_module c0 /\
  startup_time (snd (run lib c0 reqs)) = time_time c0 /\
  (forall (e : Endpoint) (p : Process) (c : Clock),
      snd (handler lib e p c) = p).
Proof.
  intros lib c0 reqs. unfold run. rewrite serve_state.
  repeat split; try reflexivity.
  intros e p c. apply handler_state.
Qed.

(** C10: two invocations of the same handler that read the same value from
    the clock, in processes holding the same startup reading, return
    identical responses. *)
Theorem handlers_are_functions_of_the_clock_reading :
  forall (lib : Pydantic.conversions) (e : Endpoint) (p1 p2 : Process)
         (c1 c2 : Clock),
  startup_time p1 = startup_time p2 ->
  same_reading e c1 c2 ->
  fst (handler lib e p1 c1) = fst (handler lib e p2 c2).
Proof.
  intros lib e [s1] [s2] [t1 u1] [t2 u2] Hs Hr.
  simpl in Hs; subst s2.
  destruct e; simpl in Hr; subst; reflexivity.
Qed.

Lemma handlers_are_functions_of_the_clock_reading_witness :
  fst (handler Pydantic.strict GET_health
         {| startup_time := 100%float |}
         {| time_time := 160%float;
            utcnow := Py.mk_datetime 2024 1 1 0 1 0 0 |}) =
  fst (handler Pydantic.strict GET_health
         {| startup_time := 100%float |}
         {| time_time := 160%float;
            utcnow := Py.mk_datetime 2024 1 1 0 1 0 250000 |}).
Proof.
  apply (handlers_are_functions_of_the_clock_reading Pydantic.strict
           GET_health
           {| startup_time := 100%float |} {| startup_time := 100%float |}
           {| time_time := 160%float;
              utcnow := Py.mk_datetime 2024 1 1 0 1 0 0 |}
           {| time_time := 160%float;
              utcnow := Py.mk_datetime 2024 1 1 0 1 0 250000 |}).
  - reflexivity.
  - reflexivity.
Defined.

(** ** The response models *)

Ltac typed_field H :=
  let v := fresh "v" in
  let E := fresh "E" in
  match type of H with
  | match Py.kwarg ?n ?kw with _ => _ end = true =>
      destruct (Py.kwarg n kw) as [v |] eqn:E; [| discriminate H]
  end.

(** C9: each of the three model classes accepts every keyword assignment
    that gives each annotated field a value of its annotated type, and the
    instance holds exactly the values given; in particular a
    [HealthResponse] is built from any strings and any float (a status
    other than "healthy", a negative uptime); and no handler returns a
    [DetailResponse]. *)
Theorem models_only_check_types :
  forall lib : Pydantic.conversions,
  (forall kw : Py.kwargs,
      Pydantic.well_typed HealthResponse.annotations kw = true ->
      exists r, HealthResponse.init lib kw = Some r /\
                forall name, In name (map fst HealthResponse.annotations) ->
                             Py.kwarg name (HealthResponse.dict r) =
                             Py.kwarg name kw) /\
  (forall kw : Py.kwargs,
      Pydantic.well_typed MessageResponse.annotations kw = true ->
      exists r, MessageResponse.init lib kw = Some r /\
                forall name, In name (map fst MessageResponse.annotations) ->
                             Py.kwarg name (MessageResponse.dict r) =
                             Py.kwarg name kw) /\
  (forall kw : Py.kwargs,
      Pydantic.well_typed DetailResponse.annotations kw = true ->
      exists r, DetailResponse.init lib kw = Some r /\
                forall name, In name (map fst DetailResponse.annotations) ->
                             Py.kwarg name (DetailResponse.dict r) =
                             Py.kwarg name kw) /\
  (forall (s v : string) (u : float),
      HealthResponse.init lib
        [("status", Py.VStr s); ("version", Py.VStr v);
         ("uptime", Py.VFloat u)] = Some (HealthResponse.mk s v u)) /\
  (forall (e : Endpoint) (p : Process) (c : Clock) (d : DetailResponse.t),
      fst (handler lib e p c) <> Some (RDetail d)).
Proof.
  intros lib. repeat apply conj.
  - intros kw H. unfold Pydantic.well_typed in H. cbn [forallb fst snd
      HealthResponse.annotations] in H.
    apply andb_prop in H as [H1 H]. apply andb_prop in H as [H2 H].
    apply andb_prop in H as [H3 _].
    typed_field H1. typed_field H2. typed_field H3.
    destruct (isinstance_TStr _ H1) as [s ->].
    destruct (isinstance_TStr _ H2) as [s' ->].
    destruct (isinstance_TFloat _ H3) as [u ->].
    exists (HealthResponse.mk s s' u). split.
    + unfold HealthResponse.init, Pydantic.field. rewrite E, E0, E1.
      reflexivity.
    + intros name Hin. simpl in Hin.
      destruct Hin as [<- | [<- | [<- | []]]]; symmetry; assumption.
  - intros kw H. unfold Pydantic.well_typed in H. cbn [forallb fst snd
      MessageResponse.annotations] in H.
    apply andb_prop in H as [H1 H]. apply andb_prop in H as [H2 H].
    apply andb_prop in H as [H3 _].
    typed_field H1. typed_field H2. typed_field H3.
    destruct (isinstance_TStr _ H1) as [s ->].
    destruct (isinstance_TStr _ H2) as [s' ->].
    destruct (isinstance_TStr _ H3) as [s'' ->].
    exists (MessageResponse.mk s s' s''). split.
    + unfold MessageResponse.init, Pydantic.field. rewrite E, E0, E1.
      reflexivity.
    + intros name Hin. simpl in Hin.
      destruct Hin as [<- | [<- | [<- | []]]]; symmetry; assumption.
  - intros kw H. unfold Pydantic.well_typed in H. cbn [forallb fst snd
      DetailResponse.annotations] in H.
    apply andb_prop in H as [H1 _].
    typed_field H1.
    destruct (isinstance_TDict _ H1) as [d' [-> Hk]].
    exists (DetailResponse.mk d'). split.
    + unfold DetailResponse.init, Pydantic.field. rewrite E.
      unfold Pydantic.validate_dict_str_any. rewrite Hk. reflexivity.
    + intros name Hin. simpl in Hin.
      destruct Hin as [<- | []]; symmetry; assumption.
  - intros s v u. reflexivity.
  - intros e p c d. destruct e; simpl; discriminate.
Qed.

Lemma models_only_check_types_witness :
  exists r : HealthResponse.t,
    HealthResponse.init Pydantic.strict
      [("uptime", Py.VFloat (-1.5)%float); ("extra", Py.VNone);
       ("status", Py.VStr "degraded"); ("version", Py.VStr "0.0.0")] = Some r /\
    forall name, In name (map fst HealthResponse.annotations) ->
                 Py.kwarg name (HealthResponse.dict r) =
                 Py.kwarg name
                   [("uptime", Py.VFloat (-1.5)%float); ("extra", Py.VNone);
                    ("status", Py.VStr "degraded");
                    ("version", Py.VStr "0.0.0")].
Proof.
  apply (proj1 (models_only_check_types Pydantic.strict)
           [("uptime", Py.VFloat (-1.5)%float); ("extra", Py.VNone);
            ("status", Py.VStr "degraded"); ("version", Py.VStr "0.0.0")]).
  reflexivity.
Defined.

(** ** Timestamps of [GET /] *)

(** C6, as stated, fails: a process served two [GET /] calls, the wall clock
    having been set back by one second between them; both timestamps
    parse, and the later one denotes the earlier time. *)
Lemma timestamps_can_go_back :
  let reqs :=
    [(GET_root, {| time_time := 101%float;
                   utcnow := Py.mk_datetime 2024 1 1 0 0 1 0 |});
     (GET_root, {| time_time := 100%float;
                   utcnow := Py.mk_datetime 2024 1 1 0 0 0 0 |})] in
  let c0 := {| time_time := 100%float;
               utcnow := Py.mk_datetime 2024 1 1 0 0 0 0 |} in
  forallb Py.datetime_valid (map utcnow (readings_of GET_root reqs)) = true /\
  timestamps (fst (run Pydantic.strict c0 reqs)) =
    ["2024-01-01T00:00:01"; "2024-01-01T00:00:00"] /\
  Py.nondecreasing parsed_leb
    (map Py.parse_iso8601 (timestamps (fst (run Pydantic.strict c0 reqs))))
  = false.
Proof. vm_compute. repeat split. Qed.

(** C6, amended: in every run, the timestamps returned by the [GET /] calls
    parse as ISO-8601, each to the [datetime.utcnow()] reading of its call;
    and when those readings never go back from one call to the next, the
    times denoted by the timestamps never go back either. *)
Theorem timestamps_parse_and_follow_the_clock :
  forall (lib : Pydantic.conversions) (c0 : Clock)
         (reqs : list (Endpoint * Clock)),
  forallb Py.datetime_valid (map utcnow (readings_of GET_root reqs)) = true ->
  map Py.parse_iso8601 (timestamps (fst (run lib c0 reqs))) =
    map (fun c => Some (utcnow c)) (readings_of GET_root reqs) /\
  (utcnow_never_goes_back reqs = true ->
   Py.nondecreasing parsed_leb
     (map Py.parse_iso8601 (timestamps (fst (run lib c0 reqs)))) = true).
Proof.
  intros lib c0 reqs Hvalid. unfold run.
  assert (Hparse :
    map Py.parse_iso8601 (timestamps (fst (serve lib (load_module c0) reqs))) =
    map (fun c => Some (utcnow c)) (readings_of GET_root reqs)).
  { rewrite serve_timestamps, map_map.
    induction (readings_of GET_root reqs) as [| c cs IH]; [reflexivity |].
    cbn [map forallb] in *. apply andb_prop in Hvalid as [Hc Hcs].
    rewrite Format.parse_isoformat by exact Hc. rewrite IH by exact Hcs.
    reflexivity. }
  split; [exact Hparse |].
  unfold utcnow_never_goes_back. intros Hmono. rewrite Hparse.
  rewrite <- (map_map utcnow Some).
  apply (nondecreasing_map Some Py.datetime_leb parsed_leb); [| exact Hmono].
  intros a b _ _ Hab. exact Hab.
Qed.

Lemma timestamps_parse_and_follow_the_clock_witness :
  let reqs :=
    [(GET_root, {| time_time := 100%float;
                   utcnow := Py.mk_datetime 2024 2 29 23 59 59 999999 |});
     (GET_health, {| time_time := 99%float;
                     utcnow := Py.mk_datetime 2024 2 29 23 59 58 0 |});
     (GET_root, {| time_time := 101%float;
                   utcnow := Py.mk_datetime 2024 3 1 0 0 0 0 |})] in
  let c0 := {| time_time := 100%float;
               utcnow := Py.mk_datetime 2024 2 29 23 59 59 0 |} in
  map Py.parse_iso8601 (timestamps (fst (run Pydantic.strict c0 reqs))) =
    map (fun c => Some (utcnow c)) (readings_of GET_root reqs) /\
  Py.nondecreasing parsed_leb
    (map Py.parse_iso8601 (timestamps (fst (run Pydantic.strict c0 reqs))))
  = true.
Proof.
  intros reqs c0.
  destruct (timestamps_parse_and_follow_the_clock Pydantic.strict c0 reqs)
    as [Hparse Hmono].
  - vm_compute. reflexivity.
  - split; [exact Hparse |]. apply Hmono. vm_compute. reflexivity.
Defined.

(** ** Uptime of [GET /health] *)

(** C2, as stated, fails: the module is loaded when [time.time()] reads
    100.0; a first [GET /health] is served at 102.0 and a second one after
    the wall clock was set back to 50.0.  The uptimes are 2.0 and -50.0:
    the second is negative, and smaller than the first. *)
Lemma uptime_can_be_negative_and_decrease :
  let c0 := {| time_time := 100%float;
               utcnow := Py.mk_datetime 2024 1 1 0 1 40 0 |} in
  let reqs :=
    [(GET_health, {| time_time := 102%float;
                     utcnow := Py.mk_datetime 2024 1 1 0 1 42 0 |});
     (GET_health, {| time_time := 50%float;
                     utcnow := Py.mk_datetime 2024 1 1 0 0 50 0 |})] in
  readings_finite c0 reqs = true /\
  uptimes (fst (run Pydantic.strict c0 reqs)) = [2%float; (-50)%float] /\
  forallb (fun u => (0 <=? u)%float)
    (uptimes (fst (run Pydantic.strict c0 reqs))) = false /\
  Py.nondecreasing PrimFloat.leb
    (uptimes (fst (run Pydantic.strict c0 reqs))) = false.
Proof. vm_compute. repeat split. Qed.

(** C2, amended: in every run whose [time.time()] readings (all finite)
    never go back, from the module load through the successive
    [GET /health] calls, each returned uptime is at least 0 and the uptimes
    of successive calls never decrease. *)
Theorem uptime_nonnegative_and_nondecreasing :
  forall (lib : Pydantic.conversions) (c0 : Clock)
         (reqs : list (Endpoint * Clock)),
  readings_finite c0 reqs = true ->
  time_never_goes_back c0 reqs = true ->
  forallb (fun u => (0 <=? u)%float) (uptimes (fst (run lib c0 reqs))) = true /\
  Py.nondecreasing PrimFloat.leb (uptimes (fst (run lib c0 reqs))) = true.
Proof.
  intros lib c0 reqs Hfin Hmono. unfold run.
  rewrite serve_uptimes. cbn [load_module startup_time].
  unfold readings_finite, time_never_goes_back, health_readings in *.
  rewrite <- (map_map time_time (fun t => (t - time_time c0)%float)).
  set (s := time_time c0) in *.
  set (ts := map time_time (readings_of GET_health reqs)) in *.
  cbn [forallb] in Hfin. apply andb_prop in Hfin as [Fs Fts].
  destruct (nondecreasing_from_head s ts Hmono) as [Hall Hnd].
  assert (Hf : forall t, In t ts -> is_finite t = true).
  { intros t Ht. exact (proj1 (forallb_forall _ _) Fts t Ht). }
  split.
  - apply forallb_forall. intros u Hu.
    apply in_map_iff in Hu as [t [<- Ht]].
    apply Binary64Facts.sub_nonneg; [apply Hf; exact Ht | exact Fs |].
    exact (proj1 (Forall_forall _ _) Hall t Ht).
  - apply (nondecreasing_map (fun t => (t - s)%float)
             PrimFloat.leb PrimFloat.leb); [| exact Hnd].
    intros a b Ha Hb Hab.
    apply Binary64Facts.sub_mono; auto.
Qed.

Lemma uptime_nonnegative_and_nondecreasing_witness :
  let c0 := {| time_time := 1700000000.25%float;
               utcnow := Py.mk_datetime 2023 11 14 22 13 20 250000 |} in
  let reqs :=
    [(GET_health, {| time_time := 1700000000.25%float;
                     utcnow := Py.mk_datetime 2023 11 14 22 13 20 250000 |});
     (GET_root, {| time_time := 1700000001%float;
                   utcnow := Py.mk_datetime 2023 11 14 22 13 21 0 |});
     (GET_health, {| time_time := 1700000003.5%float;
                     utcnow := Py.mk_datetime 2023 11 14 22 13 23 500000 |})] in
  forallb (fun u => (0 <=? u)%float)
    (uptimes (fst (run Pydantic.strict c0 reqs))) = true /\
  Py.nondecreasing PrimFloat.leb
    (uptimes (fst (run Pydantic.strict c0 reqs))) = true.
Proof.
  intros c0 reqs.
  apply (uptime_nonnegative_and_nondecreasing Pydantic.strict c0 reqs).
  - vm_compute. reflexivity.
  - vm_compute. reflexivity.
Defined.

(** * Further properties of the handlers and models *)

(** ** Handlers *)

(** X1: no handler raises, whatever the library does with ill-typed
    values, and each returns an instance of the [response_model] its route
    declares (a plain dict for [/api/info], which declares none). *)
Theorem handlers_return_their_response_model :
  forall (lib : Pydantic.conversions) (e : Endpoint) (p : Process) (c : Clock),
  exists v : Returned,
    fst (handler lib e p c) = Some v /\ model_of v = response_model e.
Proof.
  intros lib e p c. destruct e; eexists; split; reflexivity.
Qed.

(** X2: serving one list of requests after another gives the responses of
    the first followed by those the second would get in a run of its own
    from the same module load: no request changes a later response. *)
Theorem appended_requests_are_served_independently :
  forall (lib : Pydantic.conversions) (c0 : Clock)
         (pre post : list (Endpoint * Clock)),
  fst (run lib c0 (pre ++ post)%list) =
    (fst (run lib c0 pre) ++ fst (run lib c0 post))%list /\
  snd (run lib c0 (pre ++ post)%list) = snd (run lib c0 post).
Proof.
  intros lib c0 pre post. unfold run. split.
  - induction pre as [| [e c] rest IH]; [reflexivity |].
    cbn [app]. rewrite !serve_cons, IH. reflexivity.
  - rewrite !serve_state. reflexivity.
Qed.

(** ** Response models *)

Lemma field_missing {A : Type} (validate : Py.value -> option A)
    (name : string) (kw : Py.kwargs) :
  Py.kwarg name kw = None -> Pydantic.field validate name kw = None.
Proof. intros H. unfold Pydantic.field. rewrite H. reflexivity. Qed.

(** X3: every field of the three models is required: when the keyword of
    an annotated field is missing, construction fails, whatever the other
    keywords and whatever the library's conversions. *)
Theorem model_fields_are_required :
  forall (lib : Pydantic.conversions) (kw : Py.kwargs) (name : string),
  Py.kwarg name kw = None ->
  (In name (map fst HealthResponse.annotations) ->
   HealthResponse.init lib kw = None) /\
  (In name (map fst MessageResponse.annotations) ->
   MessageResponse.init lib kw = None) /\
  (In name (map fst DetailResponse.annotations) ->
   DetailResponse.init lib kw = None).
Proof.
  intros lib kw name Hmiss. repeat apply conj; intros Hin; simpl in Hin.
  - unfold HealthResponse.init.
    destruct Hin as [<- | [<- | [<- | []]]];
      rewrite (field_missing _ _ _ Hmiss);
      repeat match goal with
      | |- context [Pydantic.field ?v ?n kw] =>
          destruct (Pydantic.field v n kw)
      end; reflexivity.
  - unfold MessageResponse.init.
    destruct Hin as [<- | [<- | [<- | []]]];
      rewrite (field_missing _ _ _ Hmiss);
      repeat match goal with
      | |- context [Pydantic.field ?v ?n kw] =>
          destruct (Pydantic.field v n kw)
      end; reflexivity.
  - unfold DetailResponse.init.
    destruct Hin as [<- | []].
    rewrite (field_missing _ _ _ Hmiss). reflexivity.
Qed.

Lemma model_fields_are_required_witness :
  HealthResponse.init Pydantic.strict
    [("status", Py.VStr "healthy"); ("version", Py.VStr "1.0.0")] = None.
Proof.
  apply (proj1 (model_fields_are_required Pydantic.strict
                  [("status", Py.VStr "healthy"); ("version", Py.VStr "1.0.0")]
                  "uptime" eq_refl)).
  simpl. auto.
Defined.

Lemma str_keys_tagged (d : list (string * Py.value)) :
  Pydantic.str_keys (map (fun kv => (Py.VStr (fst kv), snd kv)) d) = Some d.
Proof.
  induction d as [| [k v] rest IH]; [reflexivity |].
  cbn [map Pydantic.str_keys fst snd]. rewrite IH. reflexivity.
Qed.

(** X4: an instance of any of the three models is rebuilt from its own
    fields: constructing the class from [dict r] succeeds and gives [r]
    back, whatever the library's conversions. *)
Theorem model_dict_round_trip :
  forall lib : Pydantic.conversions,
  (forall r, HealthResponse.init lib (HealthResponse.dict r) = Some r) /\
  (forall r, MessageResponse.init lib (MessageResponse.dict r) = Some r) /\
  (forall r, DetailResponse.init lib (DetailResponse.dict r) = Some r).
Proof.
  intros lib. repeat apply conj; intros [].
  - reflexivity.
  - reflexivity.
  - unfold DetailResponse.init, DetailResponse.dict, Pydantic.field.
    cbn [Py.kwarg String.eqb Ascii.eqb Bool.eqb DetailResponse.detail].
    unfold Pydantic.validate_dict_str_any. rewrite str_keys_tagged.
    reflexivity.
Qed.

(** ** Uptime *)

(** X5: a [GET /health] served while [time.time()] still reads the value
    captured at module load returns an uptime of exactly [0.0] (positive
    zero), for every finite reading. *)
Theorem uptime_is_zero_at_the_startup_reading :
  forall (lib : Pydantic.conversions) (p : Process) (c : Clock),
  is_finite (startup_time p) = true ->
  time_time c = startup_time p ->
  fst (health_check lib p c) =
  Some (HealthResponse.mk "healthy" "1.0.0" 0%float).
Proof.
  intros lib p c Hfin Heq. rewrite health_check_eq. cbn [fst].
  rewrite Heq, Binary64Facts.sub_self by exact Hfin. reflexivity.
Qed.

Lemma uptime_is_zero_at_the_startup_reading_witness :
  fst (health_check Pydantic.strict
         {| startup_time := 1700000000.25%float |}
         {| time_time := 1700000000.25%float;
            utcnow := Py.mk_datetime 2023 11 14 22 13 20 250000 |}) =
  Some (HealthResponse.mk "healthy" "1.0.0" 0%float).
Proof.
  apply (uptime_is_zero_at_the_startup_reading Pydantic.strict
           {| startup_time := 1700000000.25%float |}
           {| time_time := 1700000000.25%float;
              utcnow := Py.mk_datetime 2023 11 14 22 13 20 250000 |}).
  - reflexivity.
  - reflexivity.
Defined.

(** X6: for finite readings, the uptime compares to zero exactly as the
    reading of the call compares to the startup reading: it is positive
    when the clock is ahead, zero when it reads the same, negative when it
    is behind; the subtraction never rounds a non-zero difference to
    zero. *)
Theorem uptime_sign_is_the_order_of_the_readings :
  forall (lib : Pydantic.conversions) (p : Process) (c : Clock)
         (h : HealthResponse.t),
  is_finite (startup_time p) = true ->
  is_finite (time_time c) = true ->
  fst (health_check lib p c) = Some h ->
  (HealthResponse.uptime h ?= 0)%float = (time_time c ?= startup_time p)%float.
Proof.
  intros lib p c h Fs Fc Hh. rewrite health_check_eq in Hh.
  cbn [fst] in Hh. injection Hh as <-. cbn [HealthResponse.uptime].
  apply Binary64Facts.sub_compare_zero; assumption.
Qed.

Lemma uptime_sign_is_the_order_of_the_readings_witness :
  (HealthResponse.uptime
     (HealthResponse.mk "healthy" "1.0.0" (0x1p-1074 - 0x1p-1073)%float) ?= 0)%float
  = (0x1p-1074 ?= 0x1p-1073)%float.
Proof.
  apply (uptime_sign_is_the_order_of_the_readings Pydantic.strict
           {| startup_time := 0x1p-1073%float |}
           {| time_time := 0x1p-1074%float;
              utcnow := Py.mk_datetime 1970 1 1 0 0 0 0 |}).
  - reflexivity.
  - reflexivity.
  - reflexivity.
Defined.

(** X7: when the startup reading is finite and not negative and the
    reading of the call is finite and not before it, the uptime is a finite
    number between 0 and the reading of the call. *)
Theorem uptime_is_finite_and_at_most_now :
  forall (lib : Pydantic.conversions) (p : Process) (c : Clock)
         (h : HealthResponse.t),
  is_finite (startup_time p) = true ->
  is_finite (time_time c) = true ->
  (0 <=? startup_time p)%float = true ->
  (startup_time p <=? time_time c)%float = true ->
  fst (health_check lib p c) = Some h ->
  is_finite (HealthResponse.uptime h) = true /\
  (0 <=? HealthResponse.uptime h)%float = true /\
  (HealthResponse.uptime h <=? time_time c)%float = true.
Proof.
  intros lib p c h Fs Fc H0 Hle Hh. rewrite health_check_eq in Hh.
  cbn [fst] in Hh. injection Hh as <-. cbn [HealthResponse.uptime].
  apply Binary64Facts.sub_bounded; assumption.
Qed.

Lemma uptime_is_finite_and_at_most_now_witness :
  is_finite (1700000003.5 - 1700000000.25)%float = true /\
  (0 <=? 1700000003.5 - 1700000000.25)%float = true /\
  (1700000003.5 - 1700000000.25 <=? 1700000003.5)%float = true.
Proof.
  apply (uptime_is_finite_and_at_most_now Pydantic.strict
           {| startup_time := 1700000000.25%float |}
           {| time_time := 1700000003.5%float;
              utcnow := Py.mk_datetime 2023 11 14 22 13 23 500000 |}
           (HealthResponse.mk "healthy" "1.0.0"
              (1700000003.5 - 1700000000.25)%float)).
  - reflexivity.
  - reflexivity.
  - reflexivity.
  - reflexivity.
  - reflexivity.
Defined.

(** X8: while the reading of the call is at most twice the (positive)
    startup reading, that is while the process has run for no longer than
    the startup reading itself, the uptime is the exact difference of the
    two readings: the float subtraction does not round. *)
Theorem uptime_is_exact_up_to_twice_the_startup_reading :
  forall (lib : Pydantic.conversions) (p : Process) (c : Clock)
         (h : HealthResponse.t),
  is_finite (startup_time p) = true ->
  is_finite (time_time c) = true ->
  0 < units (startup_time p) ->
  units (startup_time p) <= units (time_time c) <= 2 * units (startup_time p) ->
  fst (health_check lib p c) = Some h ->
  units (HealthResponse.uptime h) =
  units (time_time c) - units (startup_time p).
Proof.
  intros lib p c h Fs Fc Hpos Hrange Hh. rewrite health_check_eq in Hh.
  cbn [fst] in Hh. injection Hh as <-. cbn [HealthResponse.uptime].
  unfold units in *. apply Binary64Facts.sub_exact; assumption.
Qed.

Lemma uptime_is_exact_up_to_twice_the_startup_reading_witness :
  units (1700000000.125 - 1700000000)%float =
  units 1700000000.125%float - units 1700000000%float.
Proof.
  apply (uptime_is_exact_up_to_twice_the_startup_reading Pydantic.strict
           {| startup_time := 1700000000%float |}
           {| time_time := 1700000000.125%float;
              utcnow := Py.mk_datetime 2023 11 14 22 13 20 125000 |}
           (HealthResponse.mk "healthy" "1.0.0"
              (1700000000.125 - 1700000000)%float)).
  - reflexivity.
  - reflexivity.
  - vm_compute. reflexivity.
  - vm_compute. split; discriminate.
  - reflexivity.
Defined.

(** ** Timestamps *)

(** X9: the timestamp of [GET /] has 19 characters when the reading has no
    microseconds, and 26 characters otherwise. *)
Theorem timestamp_length :
  forall (lib : Pydantic.conversions) (p : Process) (c : Clock)
         (m : MessageResponse.t),
  Py.datetime_valid (utcnow c) = true ->
  fst (root lib p c) = Some m ->
  String.length (MessageResponse.timestamp m) =
  if Py.microsecond (utcnow c) =? 0 then 19%nat else 26%nat.
Proof.
  intros lib p c m Hv Hm. rewrite root_eq in Hm. cbn [fst] in Hm.
  injection Hm as <-. cbn [MessageResponse.timestamp].
  apply Format.isoformat_length. exact Hv.
Qed.

Lemma timestamp_length_witness :
  String.length
    (MessageResponse.timestamp
       (MessageResponse.mk "Welcome to FastAPI with Alpine Docker! " "1.0.0"
          (Py.isoformat (Py.mk_datetime 999 2 28 23 59 59 1)))) = 26%nat.
Proof.
  apply (timestamp_length Pydantic.strict
           {| startup_time := 0%float |}
           {| time_time := 0%float;
              utcnow := Py.mk_datetime 999 2 28 23 59 59 1 |}).
  - reflexivity.
  - reflexivity.
Defined.

(** X10: the timestamps of two [GET /] responses compare as text (character
    by character, as Python compares strings) exactly as the clock
    readings they were made from compare as datetimes: sorting responses
    by timestamp text is sorting them by time. *)
Theorem timestamps_sort_as_text :
  forall (lib : Pydantic.conversions) (p1 p2 : Process) (c1 c2 : Clock)
         (m1 m2 : MessageResponse.t),
  Py.datetime_valid (utcnow c1) = true ->
  Py.datetime_valid (utcnow c2) = true ->
  fst (root lib p1 c1) = Some m1 ->
  fst (root lib p2 c2) = Some m2 ->
  String.compare (MessageResponse.timestamp m1) (MessageResponse.timestamp m2)
  = Py.datetime_compare (utcnow c1) (utcnow c2).
Proof.
  intros lib p1 p2 c1 c2 m1 m2 V1 V2 H1 H2.
  rewrite root_eq in H1, H2. cbn [fst] in H1, H2.
  injection H1 as <-. injection H2 as <-. cbn [MessageResponse.timestamp].
  apply Format.compare_isoformat; assumption.
Qed.

Lemma timestamps_sort_as_text_witness :
  String.compare
    (Py.isoformat (Py.mk_datetime 2024 12 31 23 59 59 0))
    (Py.isoformat (Py.mk_datetime 2024 12 31 23 59 59 1))
  = Py.datetime_compare (Py.mk_datetime 2024 12 31 23 59 59 0)
                        (Py.mk_datetime 2024 12 31 23 59 59 1).
Proof.
  apply (timestamps_sort_as_text Pydantic.strict
           {| startup_time := 0%float |} {| startup_time := 0%float |}
           {| time_time := 0%float;
              utcnow := Py.mk_datetime 2024 12 31 23 59 59 0 |}
           {| time_time := 0%float;
              utcnow := Py.mk_datetime 2024 12 31 23 59 59 1 |}
           (MessageResponse.mk "Welcome to FastAPI with Alpine Docker! "
              "1.0.0" (Py.isoformat (Py.mk_datetime 2024 12 31 23 59 59 0)))
           (MessageResponse.mk "Welcome to FastAPI with Alpine Docker! "
              "1.0.0" (Py.isoformat (Py.mk_datetime 2024 12 31 23 59 59 1)))).
  - reflexivity.
  - reflexivity.
  - reflexivity.
  - reflexivity.
Defined.

(** X11: two [GET /] responses carry the same timestamp only when their
    calls read the same datetime from the clock: the timestamp loses
    nothing of the reading. *)
Theorem equal_timestamps_mean_equal_readings :
  forall (lib : Pydantic.conversions) (p1 p2 : Process) (c1 c2 : Clock)
         (m1 m2 : MessageResponse.t),
  Py.datetime_valid (utcnow c1) = true ->
  Py.datetime_valid (utcnow c2) = true ->
  fst (root lib p1 c1) = Some m1 ->
  fst (root lib p2 c2) = Some m2 ->
  MessageResponse.timestamp m1 = MessageResponse.timestamp m2 ->
  utcnow c1 = utcnow c2.
Proof.
  intros lib p1 p2 c1 c2 m1 m2 V1 V2 H1 H2 Heq.
  rewrite root_eq in H1, H2. cbn [fst] in H1, H2.
  injection H1 as <-. injection H2 as <-. cbn [MessageResponse.timestamp] in Heq.
  pose proof (Format.parse_isoformat (utcnow c1) V1) as P1.
  pose proof (Format.parse_isoformat (utcnow c2) V2) as P2.
  rewrite Heq in P1. congruence.
Qed.

Lemma equal_timestamps_mean_equal_readings_witness :
  Py.mk_datetime 2024 1 1 0 0 0 0 = Py.mk_datetime 2024 1 1 0 0 0 0.
Proof.
  apply (equal_timestamps_mean_equal_readings Pydantic.strict
           {| startup_time := 0%float |} {| startup_time := 1%float |}
           {| time_time := 5%float;
              utcnow := Py.mk_datetime 2024 1 1 0 0 0 0 |}
           {| time_time := 7%float;
              utcnow := Py.mk_datetime 2024 1 1 0 0 0 0 |}
           (MessageResponse.mk "Welcome to FastAPI with Alpine Docker! "
              "1.0.0" (Py.isoformat (Py.mk_datetime 2024 1 1 0 0 0 0)))
           (MessageResponse.mk "Welcome to FastAPI with Alpine Docker! "
              "1.0.0" (Py.isoformat (Py.mk_datetime 2024 1 1 0 0 0 0)))).
  - reflexivity.
  - reflexivity.
  - reflexivity.
  - reflexivity.
  - reflexivity.
Defined.

